(** * Verification of [iqcc_calibration_tools.storage.save_utils]

    A shallow embedding of the storage helpers of the calibration tools:
    the handle-key parser [extract_string], the folder locator
    [find_numbered_folder], the two dataset assemblers
    [fetch_results_as_xarray] and [fetch_single_shot_results_as_xarray], and
    the dataset loader [load_dataset].

    Conventions of the embedding.
    - A Python [str] is a [string]; every [ascii] stands for one code point
      below 256, so the strings covered are the Latin-1 ones.
    - Python's [None] is [None] of an [option], or the constructor [PyNone]
      where a value of any type may occur.
    - A raised exception is the [Raise] outcome, carrying the exception
      class and a message: the exact text for the exceptions this module
      raises itself, a short form of it for those of the libraries.
    - Effects on the outside world (settings, directory walks and listings,
      file reads, printing) are recorded in order in a trace of events. *)

From Stdlib Require Import List String Ascii Bool Arith ZArith Lia.
From Stdlib Require Import DecimalString Permutation.
From Stdlib Require Decimal DecimalPos DecimalZ.
Import ListNotations.

Local Open Scope string_scope.
Local Open Scope list_scope.

(** ** Python values *)

(** Scalar values: what a caller can pass as [serial_number], and what a
    coordinate of a dataset holds.  A float is kept as its [repr]. *)
Inductive pyval : Type :=
| PyNone
| PyBool (b : bool)
| PyInt (z : Z)
| PyFloat (repr : string)
| PyStr (s : string).

(** Values decoded by [json.load], also the attribute values of a
    parameters object. *)
#[local] Unset Elimination Schemes.
Inductive json : Type :=
| JAtom (v : pyval)
| JList (l : list json)
| JDict (d : list (string * json)).
#[local] Set Elimination Schemes.

(** [isinstance(v, int)]: [bool] is a subclass of [int]. *)
Definition isinstance_int (v : pyval) : bool :=
  match v with
  | PyInt _ | PyBool _ => true
  | _ => false
  end.

(** [str(z)] for an integer. *)
Definition str_of_Z (z : Z) : string := NilZero.string_of_int (Z.to_int z).

(** [str(v)], the text an f-string inserts for [{v}]. *)
Definition py_str (v : pyval) : string :=
  match v with
  | PyNone => "None"
  | PyBool true => "True"
  | PyBool false => "False"
  | PyInt z => str_of_Z z
  | PyFloat r => r
  | PyStr s => s
  end.

(** ** Exceptions and outcomes *)

Inductive exn_class : Type :=
| ValueError | TypeError | KeyError | AttributeError
| FileNotFoundError | NotADirectoryError | IsADirectoryError
| JSONDecodeError | QuamLoadError | AxisError.

Record exn : Type := mkExn { exn_cls : exn_class; exn_msg : string }.

Inductive outcome (A : Type) : Type :=
| Ok (a : A)
| Raise (e : exn).
Arguments Ok {A} a.
Arguments Raise {A} e.

Definition obind {A B} (m : outcome A) (k : A -> outcome B) : outcome B :=
  match m with
  | Ok a => k a
  | Raise e => Raise e
  end.

Declare Scope outcome_scope.
Delimit Scope outcome_scope with outcome.
Notation "x <- m ;; k" := (obind m (fun x => k))
  (at level 61, m at next level, right associativity) : outcome_scope.
Local Open Scope outcome_scope.

Fixpoint omap {A B} (f : A -> outcome B) (l : list A) : outcome (list B) :=
  match l with
  | [] => Ok []
  | x :: l' => obind (f x) (fun y => obind (omap f l') (fun ys => Ok (y :: ys)))
  end.

(** ** Strings *)

(** [c.isdigit()] on code points below 256: the ASCII digits and the
    superscripts U+00B2, U+00B3 and U+00B9. *)
Definition isdigit (c : ascii) : bool :=
  let n := nat_of_ascii c in
  (((48 <=? n) && (n <=? 57)) || (n =? 178) || (n =? 179) || (n =? 185))%nat.

(** [s.startswith(p)] *)
Definition startswith (s p : string) : bool := prefix p s.

(** [s.endswith(p)] *)
Fixpoint endswith (s p : string) : bool :=
  if (String.length s <? String.length p)%nat then false
  else if (String.length s =? String.length p)%nat then String.eqb s p
  else match s with
       | EmptyString => false
       | String _ s' => endswith s' p
       end.

(** [s.split('.')[0]]: the text before the first dot. *)
Fixpoint split_dot_head (s : string) : string :=
  match s with
  | EmptyString => EmptyString
  | String c s' => if Ascii.eqb c "." then EmptyString else String c (split_dot_head s')
  end.

(** The character [c] does not occur in [s]. *)
Fixpoint lacks (c : ascii) (s : string) : bool :=
  match s with
  | EmptyString => true
  | String a s' => negb (Ascii.eqb a c) && lacks c s'
  end.

(** ** The handle-key parser *)

(** [next((i for i, c in enumerate(s) if c.isdigit()), None)], counting
    from [i]. *)
Fixpoint first_digit_index (s : string) (i : nat) : option nat :=
  match s with
  | EmptyString => None
  | String c s' => if isdigit c then Some i else first_digit_index s' (S i)
  end.

Definition extract_string (input_string : string) : option string :=
  match first_digit_index input_string 0 with
  | Some index => Some (substring 0 index input_string)
  | None => None
  end.

(** No character of [s] is a digit. *)
Fixpoint no_digit (s : string) : bool :=
  match s with
  | EmptyString => true
  | String c s' => negb (isdigit c) && no_digit s'
  end.

(** ** Paths *)

(** [posixpath.join(a, b)] *)
Definition path_join (a b : string) : string :=
  if startswith b "/" then b
  else if String.eqb a "" || endswith a "/" then a ++ b
  else a ++ "/" ++ b.

(** [s.split('/')] *)
Fixpoint split_slash (s : string) : list string :=
  match s with
  | EmptyString => [EmptyString]
  | String c s' =>
      if Ascii.eqb c "/" then EmptyString :: split_slash s'
      else match split_slash s' with
           | [] => [String c EmptyString]
           | h :: t => String c h :: t
           end
  end.

(** The names a path goes through: empty parts and [.] are skipped, as
    the kernel's path resolution does.  [..] is not interpreted. *)
Definition components (p : string) : list string :=
  filter (fun c => negb (String.eqb c "") && negb (String.eqb c ".")) (split_slash p).

Definition is_absolute (p : string) : bool := startswith p "/".

(** [str(Path(s))] on POSIX: repeated slashes, [.] parts and a trailing
    slash disappear; exactly two leading slashes are kept; the empty path
    is [.]. *)
Definition path_str (s : string) : string :=
  let root :=
    if startswith s "//" && negb (startswith s "///") then "//"
    else if startswith s "/" then "/" else "" in
  let body := String.concat "/" (components s) in
  if String.eqb (root ++ body) "" then "." else root ++ body.

(** ** The file system *)

Section FileSystem.

(** What a regular file holds. *)
Variable content : Type.

(** A directory lists its entries in the order the operating system
    returns them, which is the order [os.scandir] and [os.listdir] see.
    There are regular files and directories only, all of them readable. *)
#[local] Unset Elimination Schemes.
Inductive fsnode : Type :=
| FFile (name : string) (c : content)
| FDir (name : string) (entries : list fsnode).
#[local] Set Elimination Schemes.

Definition node_name (n : fsnode) : string :=
  match n with
  | FFile name _ => name
  | FDir name _ => name
  end.

Definition is_dir (n : fsnode) : bool :=
  match n with
  | FDir _ _ => true
  | FFile _ _ => false
  end.

Definition dir_names (entries : list fsnode) : list string :=
  map node_name (filter is_dir entries).

Definition file_names (entries : list fsnode) : list string :=
  map node_name (filter (fun n => negb (is_dir n)) entries).

Definition find_entry (name : string) (entries : list fsnode) : option fsnode :=
  find (fun n => String.eqb (node_name n) name) entries.

(** Follow the names [comps] downwards from [n]. *)
Fixpoint descend (n : fsnode) (comps : list string) : option fsnode :=
  match comps with
  | [] => Some n
  | c :: cs =>
      match n with
      | FDir _ entries =>
          match find_entry c entries with
          | Some k => descend k cs
          | None => None
          end
      | FFile _ _ => None
      end
  end.

(** The state of the file system a call runs in: the entries of the root
    directory [/] and the current working directory. *)
Record filesystem : Type := mkFs {
  fs_root : list fsnode;
  fs_cwd : string
}.

Definition resolve (fs : filesystem) (p : string) : option fsnode :=
  let comps :=
    if is_absolute p then components p
    else components (fs_cwd fs) ++ components p in
  descend (FDir "" (fs_root fs)) comps.

(** One item of [os.walk]: [(root, dirs, files)]. *)
Definition walk_step : Type := string * list string * list string.

(** [os.walk(top)] on the directory [n] found at [top], top-down: the
    directory itself, then each subdirectory in listing order. *)
Fixpoint walk_node (top : string) (n : fsnode) : list walk_step :=
  match n with
  | FFile _ _ => []
  | FDir _ entries =>
      (top, dir_names entries, file_names entries)
        :: flat_map (fun k => walk_node (path_join top (node_name k)) k) entries
  end.

(** [os.walk(top)]: a [top] that cannot be scanned yields nothing. *)
Definition os_walk (fs : filesystem) (top : string) : list walk_step :=
  match resolve fs top with
  | Some n => walk_node top n
  | None => []
  end.

(** ** The folder locator *)

Definition search_prefix (number : pyval) : string :=
  "#" ++ py_str number ++ "_".

(** [d.startswith(search_prefix) and len(d) > len(search_prefix)] *)
Definition matches_number (number : pyval) (d : string) : bool :=
  startswith d (search_prefix number)
  && (String.length (search_prefix number) <? String.length d)%nat.

(** The loop over the walk: the first step with a matching directory
    decides. *)
Fixpoint first_matching_dir (number : pyval) (steps : list walk_step) : option string :=
  match steps with
  | [] => None
  | (root, dirs, _) :: rest =>
      match filter (matches_number number) dirs with
      | d :: _ => Some (path_join root d)
      | [] => first_matching_dir number rest
      end
  end.

Definition find_numbered_folder (fs : filesystem) (base_path : string) (number : pyval)
  : option string :=
  first_matching_dir number (os_walk fs base_path).

(** The directories [os.walk] reports, in the order it reports them, each
    with the directory it was listed in. *)
Definition encountered (steps : list walk_step) : list (string * string) :=
  flat_map (fun st => let '(root, dirs, _) := st in map (fun d => (root, d)) dirs) steps.

(** [below n d]: a directory named [d] lies somewhere under [n]. *)
Inductive below : fsnode -> string -> Prop :=
| below_child name entries d sub :
    In (FDir d sub) entries -> below (FDir name entries) d
| below_deep name entries k d :
    In k entries -> below k d -> below (FDir name entries) d.

(** The names to follow from the root for a path. *)
Definition full_components (fs : filesystem) (p : string) : list string :=
  if is_absolute p then components p else components (fs_cwd fs) ++ components p.

(** A name as a directory holds them: not empty, not [.], without a
    slash. *)
Definition plain_name (s : string) : bool :=
  lacks "/" s && negb (String.eqb s "") && negb (String.eqb s ".").

(** A tree as a file system holds them: in every directory the names are
    plain and differ from each other. *)
Inductive well_named : fsnode -> Prop :=
| well_named_file name c : well_named (FFile name c)
| well_named_dir name entries :
    (forall e, In e entries -> plain_name (node_name e) = true) ->
    NoDup (map node_name entries) ->
    (forall e, In e entries -> well_named e) ->
    well_named (FDir name entries).

End FileSystem.

Arguments FFile {content} _ _.
Arguments FDir {content} _ _.
Arguments mkFs {content} _ _.
Arguments fs_root {content} _.
Arguments fs_cwd {content} _.
Arguments node_name {content} _.
Arguments is_dir {content} _.
Arguments dir_names {content} _.
Arguments file_names {content} _.
Arguments find_entry {content} _ _.
Arguments descend {content} _ _.
Arguments resolve {content} _ _.
Arguments walk_node {content} _ _.
Arguments os_walk {content} _ _.
Arguments find_numbered_folder {content} _ _ _.
Arguments below {content} _ _.
Arguments well_named {content} _.
Arguments full_components {content} _ _.

(** ** Arrays *)

(** [str(n)] for a natural number. *)
Definition str_of_nat (n : nat) : string := NilZero.string_of_uint (Nat.to_uint n).

(** [repr] of a tuple of integers: [()], [(3,)], [(3, 2)]. *)
Definition tuple_repr (l : list nat) : string :=
  match l with
  | [] => "()"
  | [n] => "(" ++ str_of_nat n ++ ",)"
  | _ => "(" ++ String.concat ", " (map str_of_nat l) ++ ")"
  end.

(** [repr] of a list of integers: [[]], [[4, 5]]. *)
Definition list_repr (l : list Z) : string :=
  "[" ++ String.concat ", " (map str_of_Z l) ++ "]".

Fixpoint list_Z_eqb (a b : list Z) : bool :=
  match a, b with
  | [], [] => true
  | x :: a', y :: b' => Z.eqb x y && list_Z_eqb a' b'
  | _, _ => false
  end.

Fixpoint insert_sorted (x : Z) (l : list Z) : list Z :=
  match l with
  | [] => [x]
  | y :: l' => if (x <=? y)%Z then x :: l else y :: insert_sorted x l'
  end.

(** [sorted(l)] *)
Definition sorted (l : list Z) : list Z := fold_right insert_sorted [] l.

(** [t.index(x)]: the first position of [x], a [ValueError] without one. *)
Fixpoint tuple_index_from (i : nat) (t : list Z) (x : Z) : outcome nat :=
  match t with
  | [] => Raise (mkExn ValueError "tuple.index(x): x not in tuple")
  | y :: t' => if Z.eqb y x then Ok i else tuple_index_from (S i) t' x
  end.

Definition tuple_index (t : list Z) (x : Z) : outcome nat := tuple_index_from 0 t x.

(** The first position of [x] in [l], or the length of [l]. *)
Fixpoint position (x : nat) (l : list nat) : nat :=
  match l with
  | [] => 0
  | y :: l' => if Nat.eqb y x then 0 else S (position x l')
  end.

Section Arrays.

(** The type of the array elements. *)
Variable elt : Type.

(** An n-dimensional array: its shape, and its element at each index (one
    position per axis).  [item] is only looked at inside the bounds. *)
Record ndarray : Type := mkArr {
  shape : list nat;
  item : list nat -> option elt
}.

Definition ndim (a : ndarray) : nat := List.length (shape a).

(** The index into the original array of the element that [np.squeeze]
    leaves at [idx]: position 0 on each axis of length 1. *)
Fixpoint unsqueeze_index (sh : list nat) (idx : list nat) : list nat :=
  match sh with
  | [] => []
  | d :: sh' =>
      if Nat.eqb d 1 then 0 :: unsqueeze_index sh' idx
      else match idx with
           | i :: idx' => i :: unsqueeze_index sh' idx'
           | [] => 0 :: unsqueeze_index sh' []
           end
  end.

(** [np.squeeze(a)]: every axis of length 1 is removed. *)
Definition squeeze (a : ndarray) : ndarray :=
  {| shape := filter (fun d => negb (Nat.eqb d 1)) (shape a);
     item := fun idx => item a (unsqueeze_index (shape a) idx) |}.

(** [a.squeeze(axis=-1)], used where the last axis has length 1. *)
Definition squeeze_last (a : ndarray) : ndarray :=
  {| shape := removelast (shape a);
     item := fun idx => item a (idx ++ [0]) |}.

(** The checks of [np.transpose] on its axes, one axis after the other. *)
Fixpoint check_axes (n : nat) (seen : list nat) (axes : list nat) : outcome unit :=
  match axes with
  | [] => Ok tt
  | a :: rest =>
      if (n <=? a)%nat then
        Raise (mkExn AxisError
                 ("axis " ++ str_of_nat a ++ " is out of bounds for array of dimension "
                  ++ str_of_nat n))
      else if existsb (Nat.eqb a) seen then
        Raise (mkExn ValueError "repeated axis in transpose")
      else check_axes n (a :: seen) rest
  end.

(** [np.transpose(a, axes)]: axis [k] of the result is axis [axes[k]] of
    [a]. *)
Definition transpose (a : ndarray) (axes : list nat) : outcome ndarray :=
  if negb (Nat.eqb (List.length axes) (ndim a)) then
    Raise (mkExn ValueError "axes don't match array")
  else
    obind (check_axes (ndim a) [] axes) (fun _ =>
    Ok {| shape := map (fun p => nth p (shape a) 0) axes;
          item := fun idx =>
            item a (map (fun m => nth (position m axes) idx 0) (seq 0 (ndim a))) |}).

Fixpoint list_nat_eqb (a b : list nat) : bool :=
  match a, b with
  | [], [] => true
  | x :: a', y :: b' => Nat.eqb x y && list_nat_eqb a' b'
  | _, _ => false
  end.

(** [np.array(arrs)] for a list of arrays: a new leading axis, provided
    the arrays have one shape. *)
Definition stack (arrs : list ndarray) : outcome ndarray :=
  match arrs with
  | [] => Ok {| shape := [0]; item := fun _ => None |}
  | a :: rest =>
      if forallb (fun b => list_nat_eqb (shape b) (shape a)) rest then
        Ok {| shape := List.length arrs :: shape a;
              item := fun idx =>
                match idx with
                | [] => None
                | i :: idx' =>
                    match nth_error arrs i with
                    | Some b => item b idx'
                    | None => None
                    end
                end |}
      else Raise (mkExn ValueError "setting an array element with a sequence")
  end.

(** [a[i]] *)
Definition subarray (a : ndarray) (i : nat) : ndarray :=
  {| shape := tl (shape a); item := fun idx => item a (i :: idx) |}.

(** ** Datasets *)

(** The value of an axis: a scalar, or a sequence of coordinates.  Of the
    scalars only the integers are covered. *)
Inductive axis_value : Type :=
| AxScalar (v : Z)
| AxSeq (l : list pyval).

(** An ordered [dict] with string keys. *)
Definition odict (V : Type) : Type := list (string * V).

Definition dict_get {V} (d : odict V) (k : string) : option V :=
  match find (fun kv => String.eqb (fst kv) k) d with
  | Some kv => Some (snd kv)
  | None => None
  end.

Definition dict_mem {V} (d : odict V) (k : string) : bool :=
  existsb (fun kv => String.eqb (fst kv) k) d.

(** [d[k] = v]: an existing key keeps its place, a new one goes last. *)
Fixpoint dict_set {V} (d : odict V) (k : string) (v : V) : odict V :=
  match d with
  | [] => [(k, v)]
  | (k', v') :: d' =>
      if String.eqb k' k then (k', v) :: d' else (k', v') :: dict_set d' k v
  end.

Definition dict_keys {V} (d : odict V) : list string := map fst d.

(** [xarray.Dataset]: each data variable with its dimension names, and
    the coordinates. *)
Record dataset : Type := mkDataset {
  data_vars : odict (list string * ndarray);
  coords : odict axis_value
}.

(** The sizes a variable gives to its dimensions. *)
Definition dim_sizes (v : list string * ndarray) : list (string * nat) :=
  combine (fst v) (shape (snd v)).

(** The size a coordinate gives to the dimension of its name. *)
Definition coord_sizes (c : string * axis_value) : list (string * nat) :=
  match snd c with
  | AxSeq l => [(fst c, List.length l)]
  | AxScalar _ => []
  end.

(** No dimension is given two sizes. *)
Fixpoint sizes_agree (l : list (string * nat)) : bool :=
  match l with
  | [] => true
  | (d, n) :: l' =>
      forallb (fun e => negb (String.eqb (fst e) d) || Nat.eqb (snd e) n) l'
      && sizes_agree l'
  end.

(** The names of the coordinates that hold a scalar. *)
Definition scalar_coords (cs : odict axis_value) : list string :=
  flat_map (fun c => match snd c with
                     | AxScalar _ => [fst c]
                     | AxSeq _ => []
                     end) cs.

(** [xr.Dataset(data_vars, coords=coords)], with the checks of the
    constructor that the assemblers can run into: a variable has as many
    dimension names as axes, no dimension bears the name of a scalar
    coordinate, and a dimension has one size throughout. *)
Definition xr_Dataset (vars : odict (list string * ndarray)) (cs : odict axis_value)
  : outcome dataset :=
  if negb (forallb (fun kv => Nat.eqb (List.length (fst (snd kv))) (ndim (snd (snd kv)))) vars) then
    Raise (mkExn ValueError "different number of dimensions on data and dims")
  else if existsb (fun d => existsb (String.eqb d) (scalar_coords cs))
                  (flat_map (fun kv => fst (snd kv)) vars) then
    Raise (mkExn ValueError "dimension already exists as a scalar variable")
  else if negb (sizes_agree (flat_map coord_sizes cs ++ flat_map (fun kv => dim_sizes (snd kv)) vars)) then
    Raise (mkExn ValueError "conflicting sizes for dimension")
  else Ok {| data_vars := vars; coords := cs |}.

End Arrays.

Arguments mkArr {elt} _ _.
Arguments shape {elt} _.
Arguments item {elt} _ _.
Arguments mkDataset {elt} _ _.
Arguments data_vars {elt} _.
Arguments coords {elt} _.
Arguments ndim {elt} _.
Arguments squeeze {elt} _.
Arguments squeeze_last {elt} _.
Arguments transpose {elt} _ _.
Arguments stack {elt} _.
Arguments subarray {elt} _ _.
Arguments dim_sizes {elt} _.
Arguments xr_Dataset {elt} _ _.

(** ** The dataset assemblers *)

(** A qubit of the calibration state, as far as this module looks at it. *)
Record qubit : Type := mkQubit { name : string; settings : json }.

(** [enumerate(l)] *)
Definition enumerate {A} (l : list A) : list (nat * A) :=
  combine (seq 0 (List.length l)) l.

Section Assemblers.

Variable elt : Type.

(** [list(set(l))]: the elements of [l], each once, in the order in which
    the interpreter happens to iterate over the set. *)
Variable list_of_set : list string -> list string.

(** The stream handles: each name with what its [fetch_all()] returns. *)
Definition stream_handles : Type := odict (ndarray elt).

(** [handles.get(key).fetch_all()] *)
Definition fetch_all (handles : stream_handles) (key : string) : outcome (ndarray elt) :=
  match dict_get handles key with
  | Some a => Ok a
  | None => Raise (mkExn AttributeError "'NoneType' object has no attribute 'fetch_all'")
  end.

(** [list(set([extract_string(h) for h in handles.keys()
               if extract_string(h) is not None]))] *)
Definition meas_vars_of (handles : stream_handles) : list string :=
  list_of_set
    (flat_map (fun h => match extract_string h with
                        | Some s => [s]
                        | None => []
                        end) (dict_keys handles)).

(** The handle name [f"{meas_var}{i + 1}"]. *)
Definition handle_key (meas_var : string) (i : nat) : string :=
  meas_var ++ str_of_nat (i + 1).

(** [[qubit.name for qubit in qubits]] *)
Definition qubit_names (qubits : list qubit) : axis_value :=
  AxSeq (map (fun q => PyStr (name q)) qubits).

(** The standard assembler.  [values[i]] is row [i] of the stacked
    array when the last axis was squeezed out, and otherwise the list of
    the arrays of variable [i], which the dataset turns into one array.
    The update of the caller's [measurement_axis] is not tracked. *)
Definition fetch_results_as_xarray
  (handles : stream_handles) (qubits : list qubit) (measurement_axis : odict axis_value)
  : outcome (dataset elt) :=
  let meas_vars := meas_vars_of handles in
  rows <- omap (fun meas_var =>
            omap (fun iq => fetch_all handles (handle_key meas_var (fst iq)))
                 (enumerate qubits)) meas_vars ;;
  stacked <- omap stack rows ;;
  full <- stack stacked ;;
  let values :=
    if Nat.eqb (last (shape full) 0) 1
    then map (subarray (squeeze_last full)) (seq 0 (List.length meas_vars))
    else stacked in
  let measurement_axis := dict_set measurement_axis "qubit" (qubit_names qubits) in
  let measurement_axis := rev measurement_axis in
  xr_Dataset
    (map (fun mv => (fst mv, (dict_keys measurement_axis, snd mv))) (combine meas_vars values))
    measurement_axis.

(** [[len(v) if not np.isscalar(v) else v for v in measurement_axis.values()]] *)
Definition expected_shape (measurement_axis : odict axis_value) : list Z :=
  map (fun kv => match snd kv with
                 | AxSeq l => Z.of_nat (List.length l)
                 | AxScalar v => v
                 end) measurement_axis.

(** The shape after the squeeze, as integers. *)
Definition squeezed_shape (raw : ndarray elt) : list Z :=
  map Z.of_nat (shape (squeeze raw)).

(** The body of the inner loop of the validated assembler, after the
    fetch: squeeze, compare with the expected shape, transpose or fail. *)
Definition match_axis_order
  (meas_var : string) (i : nat) (raw : ndarray elt) (measurement_axis : odict axis_value)
  : outcome (ndarray elt) :=
  let arr := squeeze raw in
  let expected := expected_shape measurement_axis in
  let got := squeezed_shape raw in
  if negb (list_Z_eqb got expected) then
    if list_Z_eqb (sorted got) (sorted expected) then
      perm <- omap (tuple_index got) expected ;;
      transpose arr perm
    else
      Raise (mkExn ValueError
               ("Shape mismatch for " ++ meas_var ++ str_of_nat (i + 1) ++ ": got "
                ++ tuple_repr (shape arr) ++ ", expected " ++ list_repr expected))
  else Ok arr.

(** [{"qubit": names, **measurement_axis}] *)
Definition coords_with_qubit (qubits : list qubit) (measurement_axis : odict axis_value)
  : odict axis_value :=
  fold_left (fun d kv => dict_set d (fst kv) (snd kv)) measurement_axis
            [("qubit", qubit_names qubits)].

(** The validated ("single-shot") assembler. *)
Definition fetch_single_shot_results_as_xarray
  (handles : stream_handles) (qubits : list qubit) (measurement_axis : odict axis_value)
  : outcome (dataset elt) :=
  let meas_vars := meas_vars_of handles in
  values <- omap (fun meas_var =>
              qubit_data <- omap (fun iq =>
                              raw <- fetch_all handles (handle_key meas_var (fst iq)) ;;
                              match_axis_order meas_var (fst iq) raw measurement_axis)
                            (enumerate qubits) ;;
              stack qubit_data) meas_vars ;;
  let coords := coords_with_qubit qubits measurement_axis in
  let ordered_axes := "qubit" :: dict_keys measurement_axis in
  xr_Dataset
    (map (fun mv => (fst mv, (ordered_axes, snd mv))) (combine meas_vars values))
    coords.

End Assemblers.

Arguments fetch_all {elt} _ _.
Arguments meas_vars_of {elt} _ _.
Arguments fetch_results_as_xarray {elt} _ _ _ _.
Arguments squeezed_shape {elt} _.
Arguments match_axis_order {elt} _ _ _ _.
Arguments fetch_single_shot_results_as_xarray {elt} _ _ _ _.

(** ** The dataset loader *)

(** The calibration state: its registry of qubits by name. *)
Record quam : Type := mkQuam { qubits : odict qubit }.

(** [sub in s] for two strings. *)
Fixpoint contains_str (s sub : string) : bool :=
  startswith s sub
  || match s with
     | EmptyString => false
     | String _ s' => contains_str s' sub
     end.

(** The name of the type of a value, as error messages print it. *)
Definition type_name (j : json) : string :=
  match j with
  | JAtom PyNone => "NoneType"
  | JAtom (PyBool _) => "bool"
  | JAtom (PyInt _) => "int"
  | JAtom (PyFloat _) => "float"
  | JAtom (PyStr _) => "str"
  | JList _ => "list"
  | JDict _ => "dict"
  end.

(** [j[key]] for a string [key]. *)
Definition json_getitem (j : json) (key : string) : outcome json :=
  match j with
  | JDict d =>
      match dict_get d key with
      | Some v => Ok v
      | None => Raise (mkExn KeyError key)
      end
  | JList _ => Raise (mkExn TypeError "list indices must be integers or slices, not str")
  | JAtom (PyStr _) => Raise (mkExn TypeError "string indices must be integers, not 'str'")
  | _ => Raise (mkExn TypeError ("'" ++ type_name j ++ "' object is not subscriptable"))
  end.

(** [key in j] for a string [key]. *)
Definition json_contains (j : json) (key : string) : outcome bool :=
  match j with
  | JDict d => Ok (dict_mem d key)
  | JList l =>
      Ok (existsb (fun x => match x with
                            | JAtom (PyStr s) => String.eqb s key
                            | _ => false
                            end) l)
  | JAtom (PyStr s) => Ok (contains_str s key)
  | _ => Raise (mkExn TypeError ("argument of type '" ++ type_name j ++ "' is not iterable"))
  end.

(** [os.path.join(a, b)] where either argument may be [None]. *)
Definition os_path_join (a b : option string) : outcome string :=
  match a, b with
  | Some x, Some y => Ok (path_join x y)
  | _, _ => Raise (mkExn TypeError "expected str, bytes or os.PathLike object, not NoneType")
  end.

(** [a + b] where [a] may be [None] and [b] is a string. *)
Definition str_add (a : option string) (b : string) : outcome string :=
  match a with
  | Some x => Ok (x ++ b)%string
  | None => Raise (mkExn TypeError "unsupported operand type(s) for +: 'NoneType' and 'str'")
  end.

(** [str(x)] for a string or [None]. *)
Definition opt_str (a : option string) : string :=
  match a with
  | Some x => x
  | None => "None"
  end.

(** What the program does to the outside world, in order. *)
Inductive event : Type :=
| EvSettings
| EvWalk (top : string)
| EvListdir (p : string)
| EvOpenDataset (p : string)
| EvOpen (p : string)
| EvQuamLoad (p : string)
| EvPrint (msg : string).

(** A computation with effects: its outcome and the events it caused. *)
Definition io (A : Type) : Type := outcome A * list event.

Definition io_ret {A} (a : A) : io A := (Ok a, []).
Definition io_raise {A} (e : exn) : io A := (Raise e, []).
Definition io_lift {A} (o : outcome A) : io A := (o, []).
Definition io_emit (ev : event) : io unit := (Ok tt, [ev]).

Definition io_bind {A B} (m : io A) (k : A -> io B) : io B :=
  match fst m with
  | Ok a => (fst (k a), snd m ++ snd (k a))
  | Raise e => (Raise e, snd m)
  end.

(** [try: m  except Exception as e: h e] *)
Definition io_try {A} (m : io A) (h : exn -> io A) : io A :=
  match fst m with
  | Ok a => m
  | Raise e => (fst (h e), snd m ++ snd (h e))
  end.

Declare Scope io_scope.
Delimit Scope io_scope with io.
Notation "x <~ m ;; k" := (io_bind m (fun x => k))
  (at level 61, m at next level, right associativity) : io_scope.
Notation "m ;;; k" := (io_bind m (fun _ => k))
  (at level 61, right associativity) : io_scope.
Local Open Scope io_scope.

(** The error of the check on [serial_number]. *)
Definition serial_error : exn := mkExn ValueError "serial_number must be an integer".

(** [m] does not end in the error of the check on [serial_number]. *)
Definition no_serial_error {A} (m : io A) : Prop := fst m <> Raise serial_error.

Section Loader.

Variable elt : Type.

(** What each reader makes of a file; [None] where the reader fails. *)
Record file_content : Type := mkContent {
  as_dataset : option (dataset elt);
  as_json : option json;
  as_quam : option quam
}.

(** The world a call runs in: the storage location of the settings, and
    the file system. *)
Record world : Type := mkWorld {
  storage_location : string;
  fs : filesystem file_content
}.

Definition get_storage_path (w : world) : io string :=
  io_emit EvSettings ;;; io_ret (path_str (storage_location w)).

Definition find_numbered_folder_io (w : world) (base_path : string) (number : pyval)
  : io (option string) :=
  io_emit (EvWalk base_path) ;;; io_ret (find_numbered_folder (fs w) base_path number).

(** [os.listdir(p)]; [None] lists the current directory. *)
Definition os_listdir (w : world) (p : option string) : io (list string) :=
  let path := match p with Some s => s | None => "." end in
  io_emit (EvListdir path) ;;;
  match resolve (fs w) path with
  | Some (FDir _ entries) => io_ret (map node_name entries)
  | Some (FFile _ _) => io_raise (mkExn NotADirectoryError path)
  | None => io_raise (mkExn FileNotFoundError path)
  end.

(** [xr.open_dataset(p)] *)
Definition xr_open_dataset (w : world) (p : string) : io (dataset elt) :=
  io_emit (EvOpenDataset p) ;;;
  match resolve (fs w) p with
  | Some (FFile _ c) =>
      match as_dataset c with
      | Some ds => io_ret ds
      | None => io_raise (mkExn ValueError "did not find a match in any of xarray's currently installed IO backends")
      end
  | Some (FDir _ _) => io_raise (mkExn ValueError "did not find a match in any of xarray's currently installed IO backends")
  | None => io_raise (mkExn FileNotFoundError p)
  end.

(** [with open(p, 'r') as f: json.load(f)] *)
Definition json_load (w : world) (p : string) : io json :=
  io_emit (EvOpen p) ;;;
  match resolve (fs w) p with
  | Some (FFile _ c) =>
      match as_json c with
      | Some j => io_ret j
      | None => io_raise (mkExn JSONDecodeError "Expecting value")
      end
  | Some (FDir _ _) => io_raise (mkExn IsADirectoryError p)
  | None => io_raise (mkExn FileNotFoundError p)
  end.

(** [Quam.load(p)] *)
Definition Quam_load (w : world) (p : string) : io quam :=
  io_emit (EvQuamLoad p) ;;;
  match resolve (fs w) p with
  | Some (FFile _ c) =>
      match as_quam c with
      | Some m => io_ret m
      | None => io_raise (mkExn QuamLoadError p)
      end
  | _ => io_raise (mkExn QuamLoadError p)
  end.

(** [machine.qubits[qname]] *)
Definition machine_qubit (machine : option quam) (qname : pyval) : outcome qubit :=
  match machine with
  | None => Raise (mkExn AttributeError "'NoneType' object has no attribute 'qubits'")
  | Some m =>
      match qname with
      | PyStr s =>
          match dict_get (qubits m) s with
          | Some q => Ok q
          | None => Raise (mkExn KeyError s)
          end
      | _ => Raise (mkExn KeyError (py_str qname))
      end
  end.

(** [ds.qubit.values], for a dataset whose variable [qubit], if it has
    one, is a coordinate. *)
Definition ds_qubit_values (ds : dataset elt) : outcome (list pyval) :=
  match dict_get (coords ds) "qubit" with
  | Some (AxSeq l) => Ok l
  | Some (AxScalar _) => Raise (mkExn TypeError "iteration over a 0-d array")
  | None => Raise (mkExn AttributeError "'Dataset' object has no attribute 'qubit'")
  end.

(** [[machine.qubits[qname] for qname in ds.qubit.values]] *)
Definition cross_reference (machine : option quam) (ds : dataset elt) : outcome (list qubit) :=
  names <- ds_qubit_values ds ;;
  omap (machine_qubit machine) names.

(** A parameters object: its fields in order, each with its value. *)
Definition parameters_obj : Type := odict json.

(** One round of the loop over the fields of the parameters object. *)
Definition overlay_step (json_data : json) (parameters : parameters_obj) (param_name : string)
  : outcome parameters_obj :=
  if negb (String.eqb param_name "load_data_id") then
    initial <- json_getitem json_data "initial_parameters" ;;
    present <- json_contains initial param_name ;;
    if (present : bool) then
      initial <- json_getitem json_data "initial_parameters" ;;
      v <- json_getitem initial param_name ;;
      Ok (dict_set parameters param_name v)
    else Ok parameters
  else Ok parameters.

(** [for param_name, param_value in parameters: ...] *)
Fixpoint overlay_loop (json_data : json) (names : list string) (parameters : parameters_obj)
  : outcome parameters_obj :=
  match names with
  | [] => Ok parameters
  | param_name :: rest =>
      parameters <- overlay_step json_data parameters param_name ;;
      overlay_loop json_data rest parameters
  end.

Definition overlay (json_data : json) (parameters : parameters_obj) : outcome parameters_obj :=
  overlay_loop json_data (dict_keys parameters) parameters.

(** The guarded load of the calibration state:
    [try: machine = Quam.load(base_folder + "//quam_state.json")]
    [except Exception as e: print(...); machine = None]. *)
Definition load_machine (w : world) (base_folder : option string) : io (option quam) :=
  io_try
    (p <~ io_lift (str_add base_folder "//quam_state.json") ;;
     m <~ Quam_load w p ;;
     io_ret (Some m))
    (fun e =>
       io_emit (EvPrint ("Error loading machine: " ++ exn_msg e)) ;;;
       io_ret None).

(** [f.endswith('.h5')] *)
Definition is_h5 (f : string) : bool := endswith f ".h5".

(** [target_filename == file.split('.')[0]] *)
Definition has_stem (target_filename file : string) : bool :=
  String.eqb target_filename (split_dot_head file).

(** What [load_dataset] returns when it finds data files. *)
Inductive bundle : Type :=
| Bundle4 (ds : dataset elt) (machine : option quam) (json_data : json) (qs : list qubit)
| Bundle5 (ds : dataset elt) (machine : option quam) (json_data : json) (qs : list qubit)
          (parameters : parameters_obj).

(** The body of [load_dataset] from the file listing on. *)
Definition load_from_folder
  (w : world) (base_folder : option string) (target_filename : string)
  (parameters : option parameters_obj) : io (option bundle) :=
  names <~ os_listdir w base_folder ;;
  let nc_files := filter is_h5 names in
  let is_present := existsb (String.eqb target_filename) (map split_dot_head nc_files) in
  let filename :=
    if is_present
    then hd_error (filter (has_stem target_filename) nc_files)
    else None in
  let json_filename := "data.json" in
  match nc_files with
  | _ :: _ =>
      file_path <~ io_lift (os_path_join base_folder filename) ;;
      json_path <~ io_lift (os_path_join base_folder (Some json_filename)) ;;
      ds <~ xr_open_dataset w file_path ;;
      json_data <~ json_load w json_path ;;
      machine <~ load_machine w base_folder ;;
      qs <~ io_lift (cross_reference machine ds) ;;
      match parameters with
      | Some parameters =>
          parameters <~ io_lift (overlay json_data parameters) ;;
          io_ret (Some (Bundle5 ds machine json_data qs parameters))
      | None => io_ret (Some (Bundle4 ds machine json_data qs))
      end
  | [] =>
      io_emit (EvPrint ("No .nc file found in folder: " ++ opt_str base_folder)) ;;;
      io_ret None
  end.

Definition load_dataset
  (w : world) (serial_number : pyval) (target_filename : string)
  (parameters : option parameters_obj) : io (option bundle) :=
  if negb (isinstance_int serial_number) then
    io_raise serial_error
  else
    storage <~ get_storage_path w ;;
    base_folder <~ find_numbered_folder_io w storage serial_number ;;
    load_from_folder w base_folder target_filename parameters.

(** *** Auxiliary definitions for the properties of the loader *)

(** The loader once the folder is listed and the data file is chosen. *)
Definition load_files
  (w : world) (base_folder : string) (f : string) (parameters : option parameters_obj)
  : io (option bundle) :=
  ds <~ xr_open_dataset w (path_join base_folder f) ;;
  json_data <~ json_load w (path_join base_folder "data.json") ;;
  machine <~ load_machine w (Some base_folder) ;;
  qs <~ io_lift (cross_reference machine ds) ;;
  match parameters with
  | Some parameters =>
      parameters <~ io_lift (overlay json_data parameters) ;;
      io_ret (Some (Bundle5 ds machine json_data qs parameters))
  | None => io_ret (Some (Bundle4 ds machine json_data qs))
  end.

(** What one name of the loop does to the parameters when the metadata
    holds the mapping [init] of initial parameters. *)
Definition overlay_one (init : odict json) (p : parameters_obj) (n : string) : parameters_obj :=
  if negb (n =? "load_data_id")%string then
    match dict_get init n with
    | Some v => dict_set p n v
    | None => p
    end
  else p.

(** The value of [name] after the loop over [names]. *)
Definition overlaid (init : odict json) (names : list string) (p : parameters_obj) (name : string)
  : option json :=
  if negb (name =? "load_data_id")%string
     && existsb (String.eqb name) names
     && dict_mem init name
  then dict_get init name
  else dict_get p name.

(** The loader with a parameters object is the loader without one,
    followed by the loop over the parameters. *)
Definition with_parameters (p : parameters_obj) (r : option bundle)
  : io (option bundle) :=
  match r with
  | Some (Bundle4 ds machine json_data qs) =>
      p' <~ io_lift (overlay json_data p) ;;
      io_ret (Some (Bundle5 ds machine json_data qs p'))
  | _ => io_ret r
  end.

End Loader.

Arguments mkContent {elt} _ _ _.
Arguments as_dataset {elt} _.
Arguments as_json {elt} _.
Arguments as_quam {elt} _.
Arguments mkWorld {elt} _ _.
Arguments storage_location {elt} _.
Arguments fs {elt} _.
Arguments get_storage_path {elt} _.
Arguments find_numbered_folder_io {elt} _ _ _.
Arguments os_listdir {elt} _ _.
Arguments xr_open_dataset {elt} _ _.
Arguments json_load {elt} _ _.
Arguments Quam_load {elt} _ _.
Arguments ds_qubit_values {elt} _.
Arguments cross_reference {elt} _ _.
Arguments Bundle4 {elt} _ _ _ _.
Arguments Bundle5 {elt} _ _ _ _ _.
Arguments load_machine {elt} _ _.
Arguments overlay_step _ _ _ : simpl never.
Arguments load_from_folder {elt} _ _ _ _.
Arguments load_dataset {elt} _ _ _ _.
Arguments load_files {elt} _ _ _ _.
Arguments with_parameters {elt} _ _.

(** ** Example worlds *)

Module Examples.

Definition q1 : qubit := mkQubit "q1" (JAtom PyNone).

Definition q2 : qubit := mkQubit "q2" (JAtom PyNone).

(** A fetched stream of three values that start at [base]. *)
Definition trace3 (base : Z) : ndarray Z :=
  mkArr [3] (fun idx => match idx with
                        | [k] => if (k <? 3)%nat then Some (base + Z.of_nat k)%Z else None
                        | _ => None
                        end).

(** A fetched array of shape [(3, 2, 2)], and axes of sizes 2, 3 and 2. *)
Definition grid322 : ndarray Z :=
  mkArr [3; 2; 2] (fun idx => match idx with
                              | [i; j; k] => Some (Z.of_nat (100 * i + 10 * j + k))
                              | _ => None
                              end).

Definition axes232 : odict axis_value :=
  [("a", AxSeq [PyInt 0; PyInt 1]);
   ("b", AxSeq [PyInt 0; PyInt 1; PyInt 2]);
   ("c", AxSeq [PyInt 0; PyInt 1])].

(** A fetched array of shape [(3, 1, 2)], and axes of sizes 2 and 3. *)
Definition grid312 : ndarray Z :=
  mkArr [3; 1; 2] (fun idx => match idx with
                              | [i; _; k] => Some (Z.of_nat (10 * i + k))
                              | _ => None
                              end).

Definition axes23 : odict axis_value :=
  [("a", AxSeq [PyInt 0; PyInt 1]); ("b", AxSeq [PyInt 0; PyInt 1; PyInt 2])].

(** Axes of sizes 4 and 5, the second given by a scalar. *)
Definition axes45 : odict axis_value :=
  [("a", AxSeq [PyInt 0; PyInt 1; PyInt 2; PyInt 3]); ("repetition", AxScalar 5)].

(** A dataset with the one qubit [q1], and one without any qubit. *)
Definition ds_q1 : dataset Z := mkDataset [] [("qubit", AxSeq [PyStr "q1"])].
Definition ds_no_qubit : dataset Z := mkDataset [] [("qubit", AxSeq [])].

Definition metadata : json :=
  JDict [("initial_parameters", JDict [("amplitude", JAtom (PyFloat "0.5"))])].

Definition h5_file (name : string) (ds : dataset Z) : fsnode (file_content Z) :=
  FFile name (mkContent (Some ds) None None).

Definition json_file : fsnode (file_content Z) :=
  FFile "data.json" (mkContent None (Some metadata) None).

Definition state_file : fsnode (file_content Z) :=
  FFile "quam_state.json" (mkContent None None (Some (mkQuam [("q1", q1)]))).

(** The storage at [/data], the current directory at [/work]. *)
Definition world_of (data work : list (fsnode (file_content Z))) : world Z :=
  mkWorld "/data" (mkFs [FDir "data" data; FDir "work" work] "/work").

(** No numbered folder in the storage, and a data file in the current
    directory. *)
Definition world_no_folder : world Z :=
  world_of [] [h5_file "ds.h5" ds_q1].

(** A folder for experiment 7 whose only data file is [other.h5]. *)
Definition world_other_file : world Z :=
  world_of [FDir "#7_foo" [h5_file "other.h5" ds_q1; json_file; state_file]] [].

(** A complete folder for experiment 12. *)
Definition world_complete : world Z :=
  world_of [FDir "#12_test" [h5_file "ds.h5" ds_q1; json_file; state_file]] [].

(** Folders for experiment 12 without a state file: one whose dataset has
    a qubit, one whose dataset has none. *)
Definition world_no_state : world Z :=
  world_of [FDir "#12_test" [h5_file "ds.h5" ds_q1; json_file]] [].

Definition world_no_state_no_qubit : world Z :=
  world_of [FDir "#12_test" [h5_file "ds.h5" ds_no_qubit; json_file]] [].

(** The handles of two variables for two qubits, and the handle of one
    variable for the first qubit only. *)
Definition handles_iq : odict (ndarray Z) :=
  [("I1", trace3 10); ("I2", trace3 20); ("Q1", trace3 30); ("Q2", trace3 40)].

Definition handles_i1 : odict (ndarray Z) := [("I1", trace3 10)].

Definition axes_freq : odict axis_value := [("freq", AxSeq [PyInt 1; PyInt 2; PyInt 3])].

(** An axis with a single coordinate value. *)
Definition axes_single : odict axis_value :=
  [("shot", AxSeq [PyInt 0]); ("freq", AxSeq [PyInt 1; PyInt 2; PyInt 3])].

(** A parameters object with an amplitude and a [load_data_id]. *)
Definition params : odict json :=
  [("amplitude", JAtom (PyFloat "0.1")); ("load_data_id", JAtom (PyInt 3))].

End Examples.


(** * Properties *)

(** ** The handle-key parser *)

Lemma first_digit_index_app (p : string) (c : ascii) (r : string) (i : nat) :
  no_digit p = true -> isdigit c = true ->
  first_digit_index (p ++ String c r) i = Some (i + String.length p).
Proof.
  revert i. induction p as [|a p IH]; intros i Hp Hc; simpl in *.
  - rewrite Hc. f_equal. lia.
  - apply andb_true_iff in Hp as [Ha Hp].
    apply negb_true_iff in Ha. rewrite Ha.
    rewrite IH by assumption. f_equal. lia.
Qed.

Lemma first_digit_index_none (s : string) (i : nat) :
  no_digit s = true -> first_digit_index s i = None.
Proof.
  revert i. induction s as [|a s IH]; intros i Hs; simpl in *.
  - reflexivity.
  - apply andb_true_iff in Hs as [Ha Hs].
    apply negb_true_iff in Ha. rewrite Ha. now apply IH.
Qed.

Lemma substring_prefix (p r : string) :
  substring 0 (String.length p) (p ++ r) = p.
Proof.
  induction p as [|a p IH]; simpl.
  - now destruct r.
  - now rewrite IH.
Qed.

(** A string with a digit splits at its first digit. *)
Lemma split_at_first_digit (s : string) :
  no_digit s = false ->
  exists p c r, s = (p ++ String c r)%string /\ no_digit p = true /\ isdigit c = true.
Proof.
  induction s as [|a s IH]; simpl; intros H.
  - discriminate.
  - destruct (isdigit a) eqn:Ha.
    + exists EmptyString, a, s. auto.
    + simpl in H. destruct (IH H) as (p & c & r & -> & Hp & Hc).
      exists (String a p), c, r. simpl. rewrite Ha. auto.
Qed.

Lemma extract_string_prefix (p : string) (c : ascii) (r : string) :
  no_digit p = true -> isdigit c = true ->
  extract_string (p ++ String c r) = Some p.
Proof.
  intros Hp Hc. unfold extract_string.
  rewrite first_digit_index_app by assumption. simpl.
  now rewrite substring_prefix.
Qed.

(** C2, as the code has it: the result is the text before the first digit
    whenever the string has a digit, which is the empty string (and not the
    absent result) when the string begins with a digit; the result is
    absent exactly when the string has no digit. *)
Theorem extract_string_spec (s : string) :
  (forall p c r, s = (p ++ String c r)%string -> no_digit p = true -> isdigit c = true ->
                 extract_string s = Some p)
  /\ (no_digit s = false ->
      exists p c r, s = (p ++ String c r)%string /\ no_digit p = true /\ isdigit c = true
                    /\ extract_string s = Some p)
  /\ (extract_string s = None <-> no_digit s = true)
  /\ (forall c r, s = String c r -> isdigit c = true -> extract_string s = Some "").
Proof.
  repeat split.
  - intros p c r -> Hp Hc. now apply extract_string_prefix.
  - intros H. destruct (split_at_first_digit s H) as (p & c & r & -> & Hp & Hc).
    exists p, c, r. repeat split; auto. now apply extract_string_prefix.
  - intros H. destruct (no_digit s) eqn:Hs; [reflexivity|].
    destruct (split_at_first_digit s Hs) as (p & c & r & -> & Hp & Hc).
    rewrite extract_string_prefix in H by assumption. discriminate.
  - intros H. unfold extract_string. now rewrite first_digit_index_none.
  - intros c r -> Hc. now apply (extract_string_prefix EmptyString).
Qed.

(** C2 as stated fails: a string that begins with a digit gives the empty
    string, which is not the absent result. *)
Lemma extract_string_leading_digit :
  isdigit "1" = true /\ extract_string "1a" = Some "" /\ extract_string "1a" <> None.
Proof.
  repeat split; try reflexivity. discriminate.
Qed.

(** ** Numbers in folder names *)

Lemma length_app (a b : string) :
  String.length (a ++ b) = String.length a + String.length b.
Proof. induction a as [|c a IH]; simpl; [reflexivity | now rewrite IH]. Qed.

Lemma prefix_app (a b : string) : prefix a (a ++ b) = true.
Proof.
  induction a as [|c a IH]; simpl.
  - now destruct b.
  - destruct (ascii_dec c c); [assumption | congruence].
Qed.

(** Two texts that end at the same separator are the same text. *)
Lemma prefix_to_separator (c : ascii) (a b y : string) :
  lacks c a = true -> lacks c b = true ->
  prefix (a ++ String c "") (b ++ String c y) = true -> a = b.
Proof.
  revert b. induction a as [|x a IH]; intros [|z b] Ha Hb H; simpl in *.
  - reflexivity.
  - destruct (ascii_dec c z) as [<-|]; [|discriminate].
    rewrite Ascii.eqb_refl in Hb. discriminate.
  - destruct (ascii_dec x c) as [->|]; [|discriminate].
    rewrite Ascii.eqb_refl in Ha. discriminate.
  - destruct (ascii_dec x z) as [<-|]; [|discriminate].
    apply andb_true_iff in Ha as [_ Ha]. apply andb_true_iff in Hb as [_ Hb].
    f_equal. now apply IH.
Qed.

Lemma string_of_uint_lacks_underscore (d : Decimal.uint) :
  lacks "_" (NilEmpty.string_of_uint d) = true.
Proof. induction d; simpl; auto. Qed.

Lemma str_of_Z_lacks_underscore (z : Z) : lacks "_" (str_of_Z z) = true.
Proof.
  unfold str_of_Z.
  destruct (Z.to_int z) as [d|d]; simpl; destruct d; simpl;
    auto using string_of_uint_lacks_underscore.
Qed.

Lemma str_of_Z_inj (a b : Z) : str_of_Z a = str_of_Z b -> a = b.
Proof.
  unfold str_of_Z. intros H.
  assert (Hnn : forall z, Z.to_int z <> Decimal.Pos Decimal.Nil /\ Z.to_int z <> Decimal.Neg Decimal.Nil).
  { intros [|p|p]; simpl; split; try discriminate;
      intros [= Hp]; now apply (DecimalPos.Unsigned.to_uint_nonnil p). }
  apply DecimalZ.to_int_inj.
  assert (Hs : Some (Z.to_int a) = Some (Z.to_int b)).
  { rewrite <- (NilZero.isi (Z.to_int a)), <- (NilZero.isi (Z.to_int b));
      try apply Hnn. now rewrite H. }
  now inversion Hs.
Qed.

(** X19: a folder named [#<m>_<suffix>] is a match for [n] exactly when
    [m] is [n] and the suffix is not empty. *)
Lemma matches_number_numbered (n m : Z) (suffix : string) :
  matches_number (PyInt n) ("#" ++ str_of_Z m ++ "_" ++ suffix) = true
  <-> n = m /\ suffix <> "".
Proof.
  unfold matches_number, search_prefix. simpl py_str.
  rewrite andb_true_iff, Nat.ltb_lt. split.
  - intros [Hp Hl].
    assert (n = m) as ->.
    { apply str_of_Z_inj.
      simpl in Hp. destruct (ascii_dec "#" "#"); [|congruence].
      apply (prefix_to_separator "_" _ _ suffix);
        auto using str_of_Z_lacks_underscore. }
    split; [reflexivity|]. intros ->.
    simpl in Hl. rewrite !length_app in Hl. simpl in Hl. lia.
  - intros [-> Hs]. split.
    + simpl. destruct (ascii_dec "#" "#"); [|congruence].
      replace (str_of_Z m ++ String "_" suffix)%string
        with ((str_of_Z m ++ "_") ++ suffix)%string.
      * apply prefix_app.
      * induction (str_of_Z m) as [|c t IH]; simpl; [reflexivity | now rewrite IH].
    + simpl. rewrite !length_app. simpl.
      destruct suffix; [congruence | simpl; lia].
Qed.

(** ** The folder locator *)

Section FolderLocator.

Variable content : Type.

(** Induction on a directory tree: a directory has the property when all
    its entries have it. *)
Lemma fsnode_tree_ind (P : fsnode content -> Prop) :
  (forall name c, P (FFile name c)) ->
  (forall name entries, Forall P entries -> P (FDir name entries)) ->
  forall n, P n.
Proof.
  intros Hfile Hdir.
  fix IH 1. intros [name c | name entries].
  - apply Hfile.
  - apply Hdir. induction entries as [|e es IHes]; constructor.
    + apply IH.
    + apply IHes.
Qed.

Lemma find_app_first {A} (f : A -> bool) (l1 l2 : list A) :
  find f (l1 ++ l2) = match find f l1 with
                      | Some x => Some x
                      | None => find f l2
                      end.
Proof.
  induction l1 as [|x l1 IH]; simpl; [reflexivity|].
  now destruct (f x).
Qed.

Lemma find_listed_in (f : string -> bool) (root : string) (dirs : list string) :
  find (fun rd => f (snd rd)) (map (fun d => (root, d)) dirs)
  = match filter f dirs with
    | d :: _ => Some (root, d)
    | [] => None
    end.
Proof.
  induction dirs as [|d dirs IH]; simpl; [reflexivity|].
  now destruct (f d).
Qed.

(** The loop returns the first reported directory that matches. *)
Lemma first_matching_dir_find (number : pyval) (steps : list walk_step) :
  first_matching_dir number steps
  = option_map (fun rd => path_join (fst rd) (snd rd))
      (find (fun rd => matches_number number (snd rd)) (encountered steps)).
Proof.
  induction steps as [|[[root dirs] files] steps IH]; simpl; [reflexivity|].
  rewrite find_app_first, find_listed_in.
  destruct (filter (matches_number number) dirs); simpl; [apply IH | reflexivity].
Qed.

Lemma first_matching_dir_none (number : pyval) (steps : list walk_step) :
  first_matching_dir number steps = None
  <-> forall rd, In rd (encountered steps) -> matches_number number (snd rd) = false.
Proof.
  rewrite first_matching_dir_find. split.
  - intros H rd Hin.
    destruct (find _ (encountered steps)) eqn:Hf; [discriminate|].
    apply (find_none _ _ Hf rd Hin).
  - intros H.
    destruct (find _ (encountered steps)) as [rd|] eqn:Hf; [|reflexivity].
    apply find_some in Hf as [Hin Hm]. rewrite (H rd Hin) in Hm. discriminate.
Qed.

Lemma encountered_app (s1 s2 : list walk_step) :
  encountered (s1 ++ s2) = encountered s1 ++ encountered s2.
Proof. apply flat_map_app. Qed.

Lemma in_dir_names (d : string) (entries : list (fsnode content)) :
  In d (dir_names entries) <-> exists sub, In (FDir d sub) entries.
Proof.
  unfold dir_names. rewrite in_map_iff. split.
  - intros (n & <- & Hin). apply filter_In in Hin as [Hin Hd].
    destruct n as [|name sub]; [discriminate|]. now exists sub.
  - intros (sub & Hin). exists (FDir d sub). split; [reflexivity|].
    apply filter_In. now split.
Qed.

(** The directories a walk reports are the directories below its top. *)
Lemma walk_reports_below (n : fsnode content) :
  forall top d,
    (exists root, In (root, d) (encountered (walk_node top n))) <-> below n d.
Proof.
  induction n as [name c | name entries IH] using fsnode_tree_ind; intros top d.
  - simpl. split.
    + intros (root & []).
    + intros H. inversion H.
  - simpl. split.
    + intros (root & Hin). apply in_app_or in Hin as [Hin | Hin].
      * apply in_map_iff in Hin as (d' & Heq & Hin). inversion Heq; subst.
        apply in_dir_names in Hin as (sub & Hin). eapply below_child; eassumption.
      * unfold encountered in Hin. apply in_flat_map in Hin as (st & Hst & Hin).
        apply in_flat_map in Hst as (k & Hk & Hst).
        rewrite Forall_forall in IH.
        eapply below_deep; [eassumption|].
        apply (IH k Hk (path_join top (node_name k)) d).
        exists root. unfold encountered. apply in_flat_map. eauto.
    + intros H. inversion H as [? ? ? sub Hin | ? ? k ? Hk Hb]; subst.
      * exists top. apply in_or_app. left. apply in_map_iff. exists d. split; [reflexivity|].
        apply in_dir_names. eauto.
      * rewrite Forall_forall in IH.
        apply (IH k Hk (path_join top (node_name k)) d) in Hb as (root & Hin).
        exists root. apply in_or_app. right.
        unfold encountered in *. apply in_flat_map in Hin as (st & Hst & Hin).
        apply in_flat_map. exists st. split; [|assumption].
        apply in_flat_map. eauto.
Qed.

Lemma find_numbered_folder_none (fs : filesystem content) (base_path : string) (number : pyval) :
  find_numbered_folder fs base_path number = None
  <-> forall n d, resolve fs base_path = Some n -> below n d ->
                  matches_number number d = false.
Proof.
  unfold find_numbered_folder, os_walk. rewrite first_matching_dir_none.
  destruct (resolve fs base_path) as [n|].
  - split.
    + intros H n' d Hn Hb. inversion Hn; subst n'.
      apply (walk_reports_below n base_path d) in Hb as (root & Hin).
      apply (H (root, d) Hin).
    + intros H [root d] Hin. simpl. apply (H n d eq_refl).
      apply (walk_reports_below n base_path d). eauto.
  - split.
    + intros _ n d Hn. discriminate.
    + intros _ rd [].
Qed.

End FolderLocator.

(** C6: the folder locator returns the first directory, in the order in
    which the walk reports directories, whose name starts with [#<N>_] and
    is longer than that prefix; it returns nothing exactly when no
    directory below the root has such a name; and with the two directories
    [#7_foo] and [#70_bar] in the root, in either order, the search for 7
    returns the path of [#7_foo]. *)
Theorem find_numbered_folder_spec
  (content : Type) (fs : filesystem content) (base_path : string) (N : Z) :
  search_prefix (PyInt N) = ("#" ++ str_of_Z N ++ "_")%string
  /\ (forall d, matches_number (PyInt N) d
                = startswith d (search_prefix (PyInt N))
                  && (String.length (search_prefix (PyInt N)) <? String.length d)%nat)
  /\ find_numbered_folder fs base_path (PyInt N)
     = option_map (fun rd => path_join (fst rd) (snd rd))
         (find (fun rd => matches_number (PyInt N) (snd rd))
               (encountered (os_walk fs base_path)))
  /\ (find_numbered_folder fs base_path (PyInt N) = None
      <-> forall n d, resolve fs base_path = Some n -> below n d ->
                      matches_number (PyInt N) d = false)
  /\ (forall name foo bar,
        resolve fs base_path = Some (FDir name [FDir "#7_foo" foo; FDir "#70_bar" bar])
        \/ resolve fs base_path = Some (FDir name [FDir "#70_bar" bar; FDir "#7_foo" foo]) ->
        find_numbered_folder fs base_path (PyInt 7) = Some (path_join base_path "#7_foo")).
Proof.
  split; [reflexivity|]. split; [reflexivity|].
  split; [apply first_matching_dir_find|].
  split; [apply find_numbered_folder_none|].
  intros name foo bar [H | H]; unfold find_numbered_folder, os_walk; rewrite H;
    reflexivity.
Qed.

(** ** Computations with effects *)

Lemma io_bind_ok {A B} (a : A) (t : list event) (k : A -> io B) :
  io_bind (Ok a, t) k = (fst (k a), t ++ snd (k a)).
Proof. reflexivity. Qed.

Lemma io_bind_raise {A B} (e : exn) (t : list event) (k : A -> io B) :
  io_bind (Raise e, t) k = (Raise e, t).
Proof. reflexivity. Qed.

Lemma io_bind_ret_l {A B} (a : A) (k : A -> io B) : io_bind (io_ret a) k = k a.
Proof. unfold io_bind, io_ret. simpl. now destruct (k a). Qed.

Lemma io_bind_ret_r {A} (m : io A) : io_bind m io_ret = m.
Proof.
  destruct m as [[a|e] t]; unfold io_bind; simpl; [|reflexivity].
  now rewrite app_nil_r.
Qed.

Lemma io_bind_assoc {A B C} (m : io A) (k : A -> io B) (h : B -> io C) :
  io_bind (io_bind m k) h = io_bind m (fun a => io_bind (k a) h).
Proof.
  destruct m as [[a|e] t]; unfold io_bind; simpl; [|reflexivity].
  destruct (k a) as [[b|e] t']; simpl; [|reflexivity].
  now rewrite app_assoc.
Qed.

Lemma no_serial_error_bind {A B} (m : io A) (k : A -> io B) :
  no_serial_error m -> (forall a, no_serial_error (k a)) -> no_serial_error (io_bind m k).
Proof.
  unfold no_serial_error. destruct m as [[a|e] t]; unfold io_bind; simpl.
  - intros _ H. apply H.
  - intros H _ [= Heq]. apply H. now rewrite Heq.
Qed.

Lemma no_serial_error_ret {A} (a : A) : no_serial_error (io_ret a).
Proof. discriminate. Qed.

Lemma no_serial_error_try {A} (m : io A) (h : exn -> io A) :
  (forall e, no_serial_error (h e)) -> no_serial_error (io_try m h).
Proof.
  unfold no_serial_error, io_try. destruct m as [[a|e] t]; simpl.
  - discriminate.
  - intros H. apply H.
Qed.

Lemma omap_raise {A B} (f : A -> outcome B) (l : list A) (e : exn) :
  omap f l = Raise e -> exists x, In x l /\ f x = Raise e.
Proof.
  induction l as [|x l IH]; simpl; [discriminate|].
  destruct (f x) as [y|e'] eqn:Hx; simpl.
  - destruct (omap f l) as [ys|e'']; simpl; [discriminate|].
    intros [= ->]. destruct IH as (x' & Hin & Hx'); eauto.
  - intros [= ->]. eauto.
Qed.

Section LoaderProperties.

Variable elt : Type.
Implicit Types (w : world elt) (ds : dataset elt).

Lemma cross_reference_class machine ds (e : exn) :
  cross_reference machine ds = Raise e ->
  In (exn_cls e) [AttributeError; KeyError; TypeError].
Proof.
  unfold cross_reference, ds_qubit_values.
  destruct (dict_get (coords ds) "qubit") as [[v|l]|]; simpl.
  - intros [= <-]. simpl. auto.
  - intros H. apply omap_raise in H as (q & _ & H).
    unfold machine_qubit in H. destruct machine as [m|].
    + destruct q; try (inversion H; subst; simpl; now auto).
      destruct (dict_get (qubits m) s); inversion H; subst; simpl; auto.
    + inversion H; subst; simpl; auto.
  - intros [= <-]. simpl. auto.
Qed.

Lemma json_getitem_class (j : json) (key : string) (e : exn) :
  json_getitem j key = Raise e -> In (exn_cls e) [KeyError; TypeError].
Proof.
  destruct j as [[| | | |]|l|d]; simpl; try (intros [= <-]; simpl; now auto).
  destruct (dict_get d key); intros [= <-]; simpl; auto.
Qed.

Lemma json_contains_class (j : json) (key : string) (e : exn) :
  json_contains j key = Raise e -> In (exn_cls e) [KeyError; TypeError].
Proof.
  destruct j as [[| | | |]|l|d]; simpl; try (intros [= <-]; simpl; now auto);
    discriminate.
Qed.

Lemma overlay_step_class (json_data : json) (p : parameters_obj) (n : string) (e : exn) :
  overlay_step json_data p n = Raise e -> In (exn_cls e) [KeyError; TypeError].
Proof.
  unfold overlay_step. destruct (negb (n =? "load_data_id")%string); [|discriminate].
  destruct (json_getitem json_data "initial_parameters") as [init|e'] eqn:Hi; simpl.
  - destruct (json_contains init n) as [[|]|e''] eqn:Hc; simpl.
    + destruct (json_getitem init n) as [v|e3] eqn:Hv; simpl; [discriminate|].
      intros [= <-]. eapply json_getitem_class; eassumption.
    + discriminate.
    + intros [= <-]. eapply json_contains_class; eassumption.
  - intros [= <-]. eapply json_getitem_class; eassumption.
Qed.

Lemma overlay_loop_class (json_data : json) (names : list string) (p : parameters_obj) (e : exn) :
  overlay_loop json_data names p = Raise e -> In (exn_cls e) [KeyError; TypeError].
Proof.
  revert p. induction names as [|n names IH]; intros p; simpl; [discriminate|].
  destruct (overlay_step json_data p n) as [p'|e'] eqn:Hs; simpl.
  - apply IH.
  - intros [= <-]. eapply overlay_step_class; eassumption.
Qed.

Lemma load_from_folder_no_serial_error w base_folder target_filename parameters :
  no_serial_error (load_from_folder w base_folder target_filename parameters).
Proof.
  unfold load_from_folder.
  apply no_serial_error_bind.
  { unfold os_listdir. apply no_serial_error_bind; [discriminate|]. intros _.
    destruct (resolve (fs w) _) as [[|]|]; discriminate. }
  intros names.
  cbv zeta. destruct (filter is_h5 names) as [|f nc]; [discriminate|].
  apply no_serial_error_bind.
  { unfold io_lift, os_path_join. destruct base_folder; [|discriminate].
    match goal with |- context [if ?b then _ else _] => destruct b end;
      [destruct (hd_error _)|]; discriminate. }
  intros file_path. apply no_serial_error_bind.
  { destruct base_folder; discriminate. }
  intros json_path. apply no_serial_error_bind.
  { unfold xr_open_dataset. apply no_serial_error_bind; [discriminate|]. intros _.
    destruct (resolve (fs w) _) as [[? c|]|]; try discriminate.
    destruct (as_dataset c); discriminate. }
  intros ds. apply no_serial_error_bind.
  { unfold json_load. apply no_serial_error_bind; [discriminate|]. intros _.
    destruct (resolve (fs w) _) as [[? c|]|]; try discriminate.
    destruct (as_json c); discriminate. }
  intros json_data. apply no_serial_error_bind.
  { apply no_serial_error_try. intros e.
    apply no_serial_error_bind; [discriminate|]. intros _. discriminate. }
  intros machine. apply no_serial_error_bind.
  { unfold no_serial_error, io_lift. simpl. intros H.
    apply cross_reference_class in H. simpl in H. intuition discriminate. }
  intros qs. destruct parameters as [p|]; [|discriminate].
  apply no_serial_error_bind; [|discriminate].
  unfold no_serial_error, io_lift, overlay. simpl. intros H.
  apply overlay_loop_class in H. simpl in H. intuition discriminate.
Qed.

(** C8: a [serial_number] that is not an instance of [int] makes the
    loader raise the [ValueError] at once, with no event at all before it
    (no settings read, no directory walked or listed, no file opened); an
    instance of [int] never ends in that error. *)
Theorem load_dataset_serial_number_check
  w (serial_number : pyval) (target_filename : string) (parameters : option parameters_obj) :
  (isinstance_int serial_number = false ->
   load_dataset w serial_number target_filename parameters
   = (Raise (mkExn ValueError "serial_number must be an integer"), []))
  /\ (isinstance_int serial_number = true ->
      fst (load_dataset w serial_number target_filename parameters)
      <> Raise (mkExn ValueError "serial_number must be an integer")).
Proof.
  unfold load_dataset. split; intros ->; simpl; [reflexivity|].
  apply load_from_folder_no_serial_error.
Qed.

(** C10: a boolean passes the check on [serial_number]: the loader does
    not raise the [ValueError], it reads the settings and goes on to the
    folder search with the boolean as the number, that is with the prefix
    [#True_] or [#False_], and continues from what that search returns. *)
Theorem load_dataset_accepts_bool
  w (b : bool) (target_filename : string) (parameters : option parameters_obj) :
  isinstance_int (PyBool b) = true
  /\ fst (load_dataset w (PyBool b) target_filename parameters)
     <> Raise (mkExn ValueError "serial_number must be an integer")
  /\ search_prefix (PyBool b) = (if b then "#True_" else "#False_")
  /\ (let storage := path_str (storage_location w) in
      let base_folder := find_numbered_folder (fs w) storage (PyBool b) in
      let rest := load_from_folder w base_folder target_filename parameters in
      load_dataset w (PyBool b) target_filename parameters
      = (fst rest, [EvSettings; EvWalk storage] ++ snd rest)).
Proof.
  split; [reflexivity|]. split.
  - unfold load_dataset. simpl. apply load_from_folder_no_serial_error.
  - split; [now destruct b|]. reflexivity.
Qed.

(** *** The steps of the loader *)

Lemma target_present (target_filename : string) (nc_files : list string) :
  existsb (String.eqb target_filename) (map split_dot_head nc_files) = true
  <-> exists f, hd_error (filter (has_stem target_filename) nc_files) = Some f.
Proof.
  induction nc_files as [|x l IH]; simpl.
  - split; [discriminate | intros [f [=]]].
  - unfold has_stem at 1. destruct (target_filename =? split_dot_head x)%string; simpl.
    + split; eauto.
    + exact IH.
Qed.

Lemma target_absent (target_filename : string) (nc_files : list string) :
  existsb (String.eqb target_filename) (map split_dot_head nc_files) = false
  <-> filter (has_stem target_filename) nc_files = [].
Proof.
  induction nc_files as [|x l IH]; simpl.
  - split; reflexivity.
  - unfold has_stem at 1. destruct (target_filename =? split_dot_head x)%string; simpl.
    + split; discriminate.
    + exact IH.
Qed.

(** With a folder and a data file of the requested name, the loader goes
    on to read the files. *)
Lemma load_from_folder_found w base_folder target_filename parameters names t f :
  os_listdir w (Some base_folder) = (Ok names, t) ->
  hd_error (filter (has_stem target_filename) (filter is_h5 names)) = Some f ->
  load_from_folder w (Some base_folder) target_filename parameters
  = io_bind (Ok tt, t) (fun _ => load_files w base_folder f parameters).
Proof.
  intros Hl Hf. unfold load_from_folder. rewrite Hl, !io_bind_ok.
  assert (Hp : existsb (String.eqb target_filename)
                 (map split_dot_head (filter is_h5 names)) = true).
  { apply target_present. eauto. }
  cbv beta zeta. rewrite Hp, Hf.
  destruct (filter is_h5 names) as [|x l] eqn:Hnc; [discriminate|].
  change (io_lift (os_path_join (Some base_folder) (Some f)))
    with (io_ret (A:=string) (path_join base_folder f)).
  change (io_lift (os_path_join (Some base_folder) (Some "data.json")))
    with (io_ret (A:=string) (path_join base_folder "data.json")).
  now rewrite !io_bind_ret_l.
Qed.

(** With data files in the folder but none of the requested name, the
    path of the data file is built from [None]: a [TypeError]. *)
Lemma load_from_folder_target_missing w base_folder target_filename parameters names t :
  os_listdir w (Some base_folder) = (Ok names, t) ->
  filter is_h5 names <> [] ->
  filter (has_stem target_filename) (filter is_h5 names) = [] ->
  load_from_folder w (Some base_folder) target_filename parameters
  = (Raise (mkExn TypeError "expected str, bytes or os.PathLike object, not NoneType"), t).
Proof.
  intros Hl Hnc Hf. unfold load_from_folder. rewrite Hl, io_bind_ok.
  apply target_absent in Hf. cbv beta zeta. rewrite Hf.
  destruct (filter is_h5 names) as [|x l]; [congruence|].
  unfold io_bind. simpl. now rewrite app_nil_r.
Qed.

(** Without a folder the loader lists the current directory; with a data
    file there the path of the data file is built from [None], and
    without one the loader reports and returns [None]. *)
Lemma load_from_folder_no_folder w target_filename parameters names t :
  os_listdir w None = (Ok names, t) ->
  load_from_folder w None target_filename parameters
  = match filter is_h5 names with
    | [] => (Ok None, t ++ [EvPrint "No .nc file found in folder: None"])
    | _ :: _ =>
        (Raise (mkExn TypeError "expected str, bytes or os.PathLike object, not NoneType"), t)
    end.
Proof.
  intros Hl. unfold load_from_folder. rewrite Hl, io_bind_ok. cbv beta zeta.
  destruct (filter is_h5 names) as [|x l]; unfold io_bind; simpl.
  - reflexivity.
  - now rewrite app_nil_r.
Qed.

(** *** The calibration state *)

Lemma load_dataset_int w (v : pyval) target_filename parameters :
  isinstance_int v = true ->
  load_dataset w v target_filename parameters
  = (fst (load_from_folder w
            (find_numbered_folder (fs w) (path_str (storage_location w)) v)
            target_filename parameters),
     [EvSettings; EvWalk (path_str (storage_location w))]
       ++ snd (load_from_folder w
                 (find_numbered_folder (fs w) (path_str (storage_location w)) v)
                 target_filename parameters)).
Proof. intros H. unfold load_dataset. rewrite H. reflexivity. Qed.

Lemma load_machine_caught w (base_folder : string) (e : exn) (t : list event) :
  Quam_load w (base_folder ++ "//quam_state.json") = (Raise e, t) ->
  load_machine w (Some base_folder)
  = (Ok None, t ++ [EvPrint ("Error loading machine: " ++ exn_msg e)]).
Proof.
  intros H. unfold load_machine. simpl str_add.
  change (io_lift (Ok (base_folder ++ "//quam_state.json")%string))
    with (io_ret (base_folder ++ "//quam_state.json")%string).
  rewrite io_bind_ret_l, H. reflexivity.
Qed.

Lemma load_machine_loaded w (base_folder : string) (m : quam) (t : list event) :
  Quam_load w (base_folder ++ "//quam_state.json") = (Ok m, t) ->
  load_machine w (Some base_folder) = (Ok (Some m), t).
Proof.
  intros H. unfold load_machine. simpl str_add.
  change (io_lift (Ok (base_folder ++ "//quam_state.json")%string))
    with (io_ret (base_folder ++ "//quam_state.json")%string).
  rewrite io_bind_ret_l, H. unfold io_try, io_bind. simpl. now rewrite app_nil_r.
Qed.

(** The guarded load never raises. *)
Lemma load_machine_total w (base_folder : option string) :
  exists machine t, load_machine w base_folder = (Ok machine, t).
Proof.
  destruct base_folder as [bf|].
  - destruct (Quam_load w (bf ++ "//quam_state.json")) as [[m|e] t] eqn:H.
    + rewrite (load_machine_loaded _ _ _ _ H). eauto.
    + rewrite (load_machine_caught _ _ _ _ H). eauto.
  - unfold load_machine, io_try, io_bind. simpl. eauto.
Qed.

Lemma omap_fails {A B} (f : A -> outcome B) (l : list A) (x : A) (e0 : exn) :
  In x l -> f x = Raise e0 ->
  exists e y, omap f l = Raise e /\ In y l /\ f y = Raise e.
Proof.
  induction l as [|a l IH]; simpl; [intros []|].
  intros Hin Hx. destruct (f a) as [b|e] eqn:Ha; simpl.
  - destruct Hin as [-> | Hin]; [congruence|].
    destruct (IH Hin Hx) as (e & y & -> & Hy & Hfy). simpl.
    exists e, y. auto.
  - exists e, a. auto.
Qed.

Lemma cross_reference_absent ds (q : pyval) (l : list pyval) :
  ds_qubit_values ds = Ok (q :: l) ->
  cross_reference None ds
  = Raise (mkExn AttributeError "'NoneType' object has no attribute 'qubits'").
Proof. intros H. unfold cross_reference. now rewrite H. Qed.

Lemma cross_reference_missing (m : quam) ds (names : list pyval) (s : string) :
  ds_qubit_values ds = Ok names -> In (PyStr s) names -> dict_get (qubits m) s = None ->
  exists e, exn_cls e = KeyError /\ cross_reference (Some m) ds = Raise e.
Proof.
  intros Hv Hin Hs. unfold cross_reference. rewrite Hv. simpl.
  destruct (omap_fails (machine_qubit (Some m)) names (PyStr s) (mkExn KeyError s) Hin)
    as (e & y & He & _ & Hy).
  { simpl. now rewrite Hs. }
  exists e. split; [|assumption].
  simpl in Hy. destruct y; try (now inversion Hy).
  destruct (dict_get (qubits m) s0); now inversion Hy.
Qed.

Lemma load_files_cross_reference_fails
  w base_folder f parameters ds json_data machine (e : exn) (t2 t3 t4 : list event) :
  xr_open_dataset w (path_join base_folder f) = (Ok ds, t2) ->
  json_load w (path_join base_folder "data.json") = (Ok json_data, t3) ->
  load_machine w (Some base_folder) = (Ok machine, t4) ->
  cross_reference machine ds = Raise e ->
  load_files w base_folder f parameters = (Raise e, t2 ++ t3 ++ t4).
Proof.
  intros Hd Hj Hm Hc. unfold load_files.
  rewrite Hd, io_bind_ok, Hj, io_bind_ok, Hm, io_bind_ok, Hc.
  unfold io_lift. rewrite io_bind_raise. simpl. now rewrite app_nil_r.
Qed.

(** C9, as the code has it.  In a folder whose listing, data file and
    metadata are read: (1) when loading the calibration state fails, the
    failure is caught and printed and the state is absent; the loader then
    raises an [AttributeError] if the dataset has at least one qubit
    coordinate value, and returns its result with the absent state if the
    dataset has none; (2) when the state is loaded but a qubit name of the
    dataset is missing from its registry, the loader raises a
    [KeyError]. *)
Theorem load_dataset_machine_failure
  w (serial_number : pyval) (base_folder target_filename : string) (names : list string)
  (f : string) ds (json_data : json) (t1 t2 t3 : list event) :
  isinstance_int serial_number = true ->
  find_numbered_folder (fs w) (path_str (storage_location w)) serial_number
    = Some base_folder ->
  os_listdir w (Some base_folder) = (Ok names, t1) ->
  hd_error (filter (has_stem target_filename) (filter is_h5 names)) = Some f ->
  xr_open_dataset w (path_join base_folder f) = (Ok ds, t2) ->
  json_load w (path_join base_folder "data.json") = (Ok json_data, t3) ->
  let start := [EvSettings; EvWalk (path_str (storage_location w))] in
  (forall e t4,
      Quam_load w (base_folder ++ "//quam_state.json") = (Raise e, t4) ->
      let log := t4 ++ [EvPrint ("Error loading machine: " ++ exn_msg e)] in
      load_machine w (Some base_folder) = (Ok None, log)
      /\ (forall q l parameters,
             ds_qubit_values ds = Ok (q :: l) ->
             load_dataset w serial_number target_filename parameters
             = (Raise (mkExn AttributeError "'NoneType' object has no attribute 'qubits'"),
                start ++ t1 ++ t2 ++ t3 ++ log))
      /\ (ds_qubit_values ds = Ok [] ->
          load_dataset w serial_number target_filename None
          = (Ok (Some (Bundle4 ds None json_data [])), start ++ t1 ++ t2 ++ t3 ++ log)))
  /\ (forall m t4 qnames s parameters,
         Quam_load w (base_folder ++ "//quam_state.json") = (Ok m, t4) ->
         ds_qubit_values ds = Ok qnames -> In (PyStr s) qnames ->
         dict_get (qubits m) s = None ->
         exists e, exn_cls e = KeyError
                   /\ load_dataset w serial_number target_filename parameters
                      = (Raise e, start ++ t1 ++ t2 ++ t3 ++ t4)).
Proof.
  intros Hint Hfind Hl Hf Hd Hj start. split.
  - intros e t4 Hq log.
    pose proof (load_machine_caught _ _ _ _ Hq) as Hm. fold log in Hm.
    split; [exact Hm|]. split.
    + intros q l parameters Hv.
      rewrite (load_dataset_int _ _ _ _ Hint), Hfind.
      rewrite (load_from_folder_found _ _ _ _ _ _ _ Hl Hf), io_bind_ok.
      rewrite (load_files_cross_reference_fails _ _ _ _ _ _ _ _ _ _ _ Hd Hj Hm
                 (cross_reference_absent _ _ _ Hv)).
      reflexivity.
    + intros Hv.
      rewrite (load_dataset_int _ _ _ _ Hint), Hfind.
      rewrite (load_from_folder_found _ _ _ _ _ _ _ Hl Hf), io_bind_ok.
      unfold load_files.
      rewrite Hd, io_bind_ok, Hj, io_bind_ok, Hm, io_bind_ok.
      unfold cross_reference. rewrite Hv. simpl.
      now rewrite !app_nil_r.
  - intros m t4 qnames s parameters Hq Hv Hin Hs.
    destruct (cross_reference_missing m ds qnames s Hv Hin Hs) as (e & Hk & Hc).
    exists e. split; [assumption|].
    rewrite (load_dataset_int _ _ _ _ Hint), Hfind.
    rewrite (load_from_folder_found _ _ _ _ _ _ _ Hl Hf), io_bind_ok.
    rewrite (load_files_cross_reference_fails _ _ _ _ _ _ _ _ _ _ _ Hd Hj
               (load_machine_loaded _ _ _ _ Hq) Hc).
    reflexivity.
Qed.

(** *** The parameters *)

Lemma dict_mem_get {V} (d : odict V) (k : string) :
  dict_mem d k = true <-> exists v, dict_get d k = Some v.
Proof.
  unfold dict_mem, dict_get. induction d as [|[k' v'] d IH]; simpl.
  - split; [discriminate | intros [v [=]]].
  - destruct (k' =? k)%string; simpl; [split; eauto | exact IH].
Qed.

Lemma dict_get_none {V} (d : odict V) (k : string) :
  dict_mem d k = false <-> dict_get d k = None.
Proof.
  unfold dict_mem, dict_get. induction d as [|[k' v'] d IH]; simpl.
  - split; reflexivity.
  - destruct (k' =? k)%string; simpl; [split; discriminate | exact IH].
Qed.

Lemma dict_get_set {V} (d : odict V) (k k' : string) (v : V) :
  dict_get (dict_set d k v) k' = if (k =? k')%string then Some v else dict_get d k'.
Proof.
  unfold dict_get. induction d as [|[a x] d IH]; simpl.
  - now destruct (k =? k')%string.
  - destruct (a =? k)%string eqn:Hak; simpl.
    + apply String.eqb_eq in Hak. subst a. now destruct (k =? k')%string.
    + destruct (a =? k')%string eqn:Hak'; simpl.
      * apply String.eqb_eq in Hak'. subst a.
        rewrite String.eqb_sym, Hak. reflexivity.
      * exact IH.
Qed.

Lemma dict_keys_set {V} (d : odict V) (k : string) (v : V) :
  dict_mem d k = true -> dict_keys (dict_set d k v) = dict_keys d.
Proof.
  unfold dict_mem, dict_keys. induction d as [|[a x] d IH]; simpl; [discriminate|].
  destruct (a =? k)%string; simpl; [reflexivity|].
  intros H. now rewrite IH.
Qed.

Lemma dict_mem_keys {V} (d : odict V) (k : string) :
  dict_mem d k = true <-> In k (dict_keys d).
Proof.
  unfold dict_mem, dict_keys. rewrite existsb_exists, in_map_iff. split.
  - intros ([a x] & Hin & Heq). simpl in Heq. apply String.eqb_eq in Heq. subst.
    now exists (k, x).
  - intros ([a x] & Heq & Hin). simpl in Heq. subst.
    exists (k, x). split; [assumption | apply String.eqb_refl].
Qed.

Lemma overlay_step_dict (json_data : json) (init : odict json) (p : parameters_obj) (n : string) :
  json_getitem json_data "initial_parameters" = Ok (JDict init) ->
  overlay_step json_data p n = Ok (overlay_one init p n).
Proof.
  intros H. unfold overlay_step, overlay_one.
  destruct (negb (n =? "load_data_id")%string); [|reflexivity].
  rewrite H. simpl.
  destruct (dict_mem init n) eqn:Hm.
  - apply dict_mem_get in Hm as [v Hv]. now rewrite Hv.
  - apply dict_get_none in Hm. now rewrite Hm.
Qed.

Lemma overlay_one_get (init : odict json) (p : parameters_obj) (n name : string) :
  dict_get (overlay_one init p n) name
  = if (n =? name)%string && negb (n =? "load_data_id")%string && dict_mem init n
    then dict_get init n
    else dict_get p name.
Proof.
  unfold overlay_one.
  destruct (negb (n =? "load_data_id")%string); simpl; [|now rewrite andb_false_r].
  rewrite andb_true_r.
  destruct (dict_mem init n) eqn:Hm.
  - apply dict_mem_get in Hm as [v Hv]. rewrite Hv, dict_get_set, andb_true_r.
    reflexivity.
  - apply dict_get_none in Hm. rewrite Hm. now rewrite andb_false_r.
Qed.

Lemma overlay_loop_dict (json_data : json) (init : odict json) :
  json_getitem json_data "initial_parameters" = Ok (JDict init) ->
  forall names p,
    (forall n, In n names -> dict_mem p n = true) ->
    exists p', overlay_loop json_data names p = Ok p'
               /\ dict_keys p' = dict_keys p
               /\ forall name, dict_get p' name = overlaid init names p name.
Proof.
  intros Hj. induction names as [|n names IH]; intros p Hin; simpl.
  - exists p. repeat split. intros name. unfold overlaid. simpl.
    now rewrite andb_false_r.
  - rewrite (overlay_step_dict _ _ _ _ Hj). simpl.
    assert (Hk : dict_keys (overlay_one init p n) = dict_keys p).
    { unfold overlay_one. destruct (negb _); [|reflexivity].
      destruct (dict_get init n); [|reflexivity].
      apply dict_keys_set. apply Hin. now left. }
    destruct (IH (overlay_one init p n)) as (p' & Hp' & Hkeys & Hget).
    { intros m Hm. apply dict_mem_keys. rewrite Hk. apply dict_mem_keys.
      apply Hin. now right. }
    exists p'. split; [assumption|]. split; [congruence|].
    intros name. rewrite Hget. unfold overlaid. rewrite overlay_one_get. simpl existsb.
    destruct (n =? name)%string eqn:Hn.
    + apply String.eqb_eq in Hn. subst n. rewrite String.eqb_refl. simpl.
      destruct (negb (name =? "load_data_id")%string); simpl; [|reflexivity].
      destruct (dict_mem init name); simpl; [|now rewrite andb_false_r].
      now destruct (existsb (String.eqb name) names).
    + rewrite (String.eqb_sym name n), Hn. reflexivity.
Qed.

Lemma overlay_dict (json_data : json) (init : odict json) (p : parameters_obj) :
  json_getitem json_data "initial_parameters" = Ok (JDict init) ->
  exists p', overlay json_data p = Ok p'
             /\ dict_keys p' = dict_keys p
             /\ forall name, dict_get p' name = overlaid init (dict_keys p) p name.
Proof.
  intros Hj. apply (overlay_loop_dict _ _ Hj).
  intros n Hn. now apply dict_mem_keys.
Qed.

Lemma io_bind_ext {A B} (m : io A) (k k' : A -> io B) :
  (forall a, k a = k' a) -> io_bind m k = io_bind m k'.
Proof.
  intros H. destruct m as [[a|e] t]; unfold io_bind; simpl; [|reflexivity].
  now rewrite H.
Qed.

Lemma load_from_folder_with_parameters w base_folder target_filename (p : parameters_obj) :
  load_from_folder w base_folder target_filename (Some p)
  = io_bind (load_from_folder w base_folder target_filename None) (with_parameters p).
Proof.
  unfold load_from_folder. rewrite io_bind_assoc.
  apply io_bind_ext. intros names. cbv zeta.
  destruct (filter is_h5 names) as [|x l].
  - rewrite io_bind_assoc. apply io_bind_ext. intros _.
    now rewrite io_bind_ret_l.
  - repeat (rewrite io_bind_assoc; apply io_bind_ext; intros ?).
    now rewrite io_bind_ret_l.
Qed.

(** C7: when the loader returns the 4-tuple without a parameters object
    and the metadata holds a mapping of initial parameters, the loader
    with a parameters object returns the 5-tuple with the same first four
    parts and causes the same events; the parameters keep their names,
    [load_data_id] keeps its value, every other name of the mapping takes
    the stored value, and every name outside the mapping keeps its
    value. *)
Theorem load_dataset_parameters
  w (serial_number : pyval) (target_filename : string) (p : parameters_obj)
  ds (machine : option quam) (json_data : json) (qs : list qubit) (init : odict json) :
  fst (load_dataset w serial_number target_filename None)
    = Ok (Some (Bundle4 ds machine json_data qs)) ->
  json_getitem json_data "initial_parameters" = Ok (JDict init) ->
  exists p',
    load_dataset w serial_number target_filename (Some p)
    = (Ok (Some (Bundle5 ds machine json_data qs p')),
       snd (load_dataset w serial_number target_filename None))
    /\ dict_keys p' = dict_keys p
    /\ dict_get p' "load_data_id" = dict_get p "load_data_id"
    /\ (forall name v,
          name <> "load_data_id" -> dict_mem p name = true ->
          dict_get init name = Some v -> dict_get p' name = Some v)
    /\ (forall name, dict_get init name = None -> dict_get p' name = dict_get p name).
Proof.
  intros Hload Hj.
  destruct (overlay_dict json_data init p Hj) as (p' & Hov & Hkeys & Hget).
  exists p'. split; [|split; [assumption|split; [|split]]].
  - destruct (isinstance_int serial_number) eqn:Hint.
    + rewrite (load_dataset_int _ _ _ None Hint) in Hload.
      rewrite (load_dataset_int _ _ _ (Some p) Hint), (load_dataset_int _ _ _ None Hint).
      simpl fst in Hload. simpl snd.
      rewrite load_from_folder_with_parameters.
      destruct (load_from_folder w _ target_filename None) as [[r|e] t]; simpl in Hload;
        [|discriminate].
      inversion Hload; subst r. rewrite io_bind_ok. simpl with_parameters.
      rewrite Hov. simpl. now rewrite !app_nil_r.
    + unfold load_dataset in Hload. rewrite Hint in Hload. discriminate.
  - rewrite Hget. unfold overlaid. reflexivity.
  - intros name v Hn Hm Hv. rewrite Hget. unfold overlaid.
    apply String.eqb_neq in Hn. rewrite Hn. simpl.
    assert (He : existsb (String.eqb name) (dict_keys p) = true).
    { apply existsb_exists. exists name. split; [|apply String.eqb_refl].
      now apply dict_mem_keys. }
    rewrite He. simpl.
    assert (Hi : dict_mem init name = true) by (apply dict_mem_get; eauto).
    now rewrite Hi.
  - intros name Hv. rewrite Hget. unfold overlaid.
    apply dict_get_none in Hv. rewrite Hv. now rewrite andb_false_r.
Qed.

End LoaderProperties.

(** ** The loader without a folder, or without the data file *)

(** C1, at a failing input: with no folder for experiment 7 under the
    storage and a file [ds.h5] in the current directory, the loader lists
    the current directory and then raises a [TypeError] when it joins the
    absent folder with a file name. *)
Theorem load_dataset_no_folder_raises :
  find_numbered_folder (fs Examples.world_no_folder) "/data" (PyInt 7) = None
  /\ load_dataset Examples.world_no_folder (PyInt 7) "ds" None
     = (Raise (mkExn TypeError "expected str, bytes or os.PathLike object, not NoneType"),
        [EvSettings; EvWalk "/data"; EvListdir "."]).
Proof. split; reflexivity. Qed.

(** C3, at a failing input: the folder of experiment 7 holds [other.h5]
    only; asked for [ds], the loader raises a [TypeError] when it joins the
    folder with the absent file name. *)
Theorem load_dataset_target_missing_raises :
  find_numbered_folder (fs Examples.world_other_file) "/data" (PyInt 7) = Some "/data/#7_foo"
  /\ load_dataset Examples.world_other_file (PyInt 7) "ds" None
     = (Raise (mkExn TypeError "expected str, bytes or os.PathLike object, not NoneType"),
        [EvSettings; EvWalk "/data"; EvListdir "/data/#7_foo"]).
Proof. split; reflexivity. Qed.

(** ** The loader on the example worlds *)

(** C9 as stated fails: without a state file the calibration state is
    absent, and yet for a dataset without any qubit the loader returns its
    result. *)
Lemma load_dataset_absent_state_returns :
  fst (load_machine Examples.world_no_state_no_qubit (Some "/data/#12_test")) = Ok None
  /\ fst (load_dataset Examples.world_no_state_no_qubit (PyInt 12) "ds" None)
     = Ok (Some (Bundle4 Examples.ds_no_qubit None Examples.metadata [])).
Proof. split; reflexivity. Qed.

(** The folder of experiment 12 without a state file, with a dataset of
    one qubit: the failed load is printed, then the cross-reference
    raises. *)
Lemma load_dataset_machine_failure_example :
  load_dataset Examples.world_no_state (PyInt 12) "ds" None
  = (Raise (mkExn AttributeError "'NoneType' object has no attribute 'qubits'"),
     [EvSettings; EvWalk "/data"; EvListdir "/data/#12_test";
      EvOpenDataset "/data/#12_test/ds.h5"; EvOpen "/data/#12_test/data.json";
      EvQuamLoad "/data/#12_test//quam_state.json";
      EvPrint "Error loading machine: /data/#12_test//quam_state.json"]).
Proof.
  destruct (load_dataset_machine_failure Z Examples.world_no_state (PyInt 12)
              "/data/#12_test" "ds" ["ds.h5"; "data.json"] "ds.h5"
              Examples.ds_q1 Examples.metadata
              [EvListdir "/data/#12_test"] [EvOpenDataset "/data/#12_test/ds.h5"]
              [EvOpen "/data/#12_test/data.json"]
              eq_refl eq_refl eq_refl eq_refl eq_refl eq_refl) as [H _].
  destruct (H (mkExn QuamLoadError "/data/#12_test//quam_state.json")
              [EvQuamLoad "/data/#12_test//quam_state.json"] eq_refl) as (_ & H' & _).
  exact (H' (PyStr "q1") [] None eq_refl).
Defined.

(** The complete folder of experiment 12 with a parameters object that has
    an [amplitude] and a [load_data_id]. *)
Lemma load_dataset_parameters_example :
  exists p',
    load_dataset Examples.world_complete (PyInt 12) "ds"
      (Some [("amplitude", JAtom (PyFloat "0.1")); ("load_data_id", JAtom (PyInt 3))])
    = (Ok (Some (Bundle5 Examples.ds_q1 (Some (mkQuam [("q1", Examples.q1)]))
                   Examples.metadata [Examples.q1] p')),
       snd (load_dataset Examples.world_complete (PyInt 12) "ds" None))
    /\ dict_keys p' = ["amplitude"; "load_data_id"]
    /\ dict_get p' "load_data_id" = Some (JAtom (PyInt 3))
    /\ (forall name v,
          name <> "load_data_id" ->
          dict_mem [("amplitude", JAtom (PyFloat "0.1")); ("load_data_id", JAtom (PyInt 3))]
            name = true ->
          dict_get [("amplitude", JAtom (PyFloat "0.5"))] name = Some v ->
          dict_get p' name = Some v)
    /\ (forall name,
          dict_get [("amplitude", JAtom (PyFloat "0.5"))] name = None ->
          dict_get p' name
          = dict_get [("amplitude", JAtom (PyFloat "0.1")); ("load_data_id", JAtom (PyInt 3))]
              name).
Proof.
  exact (load_dataset_parameters Z Examples.world_complete (PyInt 12) "ds"
           [("amplitude", JAtom (PyFloat "0.1")); ("load_data_id", JAtom (PyInt 3))]
           Examples.ds_q1 (Some (mkQuam [("q1", Examples.q1)])) Examples.metadata
           [Examples.q1] [("amplitude", JAtom (PyFloat "0.5"))] eq_refl eq_refl).
Defined.

(** The spec's round trip: the stored amplitude replaces the caller's. *)
Example load_dataset_round_trip :
  fst (load_dataset Examples.world_complete (PyInt 12) "ds"
         (Some [("amplitude", JAtom (PyFloat "0.1")); ("load_data_id", JAtom (PyInt 3))]))
  = Ok (Some (Bundle5 Examples.ds_q1 (Some (mkQuam [("q1", Examples.q1)]))
                Examples.metadata [Examples.q1]
                [("amplitude", JAtom (PyFloat "0.5")); ("load_data_id", JAtom (PyInt 3))])).
Proof. reflexivity. Qed.

(** ** The standard assembler *)

(** The enumerations of a set of two elements. *)
Lemma two_element_orders (l : list string) (a b : string) :
  a <> b -> NoDup l -> (forall x, In x l <-> x = a \/ x = b) ->
  l = [a; b] \/ l = [b; a].
Proof.
  intros Hab Hnd Hin.
  assert (Hlen : forall x y rest, l = x :: y :: rest -> rest = []).
  { intros x y [|z rest] ->; [reflexivity|].
    assert (Hx : x = a \/ x = b) by (apply Hin; simpl; auto).
    assert (Hy : y = a \/ y = b) by (apply Hin; simpl; auto).
    assert (Hz : z = a \/ z = b) by (apply Hin; simpl; auto).
    inversion Hnd as [|? ? Hx' Hnd']; subst.
    inversion Hnd' as [|? ? Hy' Hnd'']; subst.
    simpl in Hx', Hy'.
    exfalso. destruct Hx, Hy, Hz; subst; intuition congruence. }
  destruct l as [|x [|y rest]].
  - exfalso. apply (proj2 (Hin a)). now left.
  - exfalso.
    assert (Ha : In a [x]) by (apply Hin; now left).
    assert (Hb : In b [x]) by (apply Hin; now right).
    simpl in Ha, Hb. intuition congruence.
  - rewrite (Hlen x y rest eq_refl) in *.
    assert (Hx : x = a \/ x = b) by (apply Hin; simpl; auto).
    assert (Hy : y = a \/ y = b) by (apply Hin; simpl; auto).
    inversion Hnd as [|? ? Hx' _]; subst. simpl in Hx'.
    destruct Hx, Hy; subst; intuition congruence.
Qed.

(** X20: whatever the inputs, a dataset that the standard assembler returns
    has the reversed axis specification, [qubit] included, as its
    coordinates, and the names of that reversed specification as the
    dimensions of every variable. *)
Lemma fetch_results_as_xarray_dims
  (elt : Type) (list_of_set : list string -> list string)
  (handles : stream_handles elt) (qubits : list qubit) (measurement_axis : odict axis_value)
  (ds : dataset elt) :
  fetch_results_as_xarray list_of_set handles qubits measurement_axis = Ok ds ->
  let reversed := rev (dict_set measurement_axis "qubit" (qubit_names qubits)) in
  coords ds = reversed
  /\ forall v, In v (data_vars ds) -> fst (snd v) = dict_keys reversed.
Proof.
  unfold fetch_results_as_xarray.
  destruct (omap _ (meas_vars_of list_of_set handles)) as [rows|e]; simpl; [|discriminate].
  destruct (omap stack rows) as [stacked|e]; simpl; [|discriminate].
  destruct (stack stacked) as [full|e]; simpl; [|discriminate].
  unfold xr_Dataset.
  destruct (negb (forallb _ _)); [discriminate|].
  destruct (existsb _ _); [discriminate|].
  destruct (negb (sizes_agree _)); [discriminate|].
  intros [= <-]. simpl. split; [reflexivity|].
  intros v Hv. apply in_map_iff in Hv as (mv & <- & _). reflexivity.
Qed.

(** C5: two qubits, the handles [I1], [I2], [Q1], [Q2] with an array of
    shape [(3,)] each, and the one axis [freq] with three values.  In
    whatever order the set of variable names is iterated, the standard
    assembler returns a dataset with the variables [I] and [Q], each with
    the dimensions [qubit], [freq] and the shape [(2, 3)], row [i] holding
    the array of qubit [i + 1]; the coordinates are the axis
    specification with [qubit] added at its end, reversed. *)
Theorem fetch_results_as_xarray_example
  (elt : Type) (list_of_set : list string -> list string)
  (i1 i2 q1 q2 : ndarray elt) (qa qb : qubit) (f0 f1 f2 : pyval) :
  (forall l, NoDup (list_of_set l) /\ forall x, In x (list_of_set l) <-> In x l) ->
  shape i1 = [3] -> shape i2 = [3] -> shape q1 = [3] -> shape q2 = [3] ->
  let measurement_axis := [("freq", AxSeq [f0; f1; f2])] in
  exists ds vI vQ,
    fetch_results_as_xarray list_of_set
      [("I1", i1); ("I2", i2); ("Q1", q1); ("Q2", q2)] [qa; qb] measurement_axis
    = Ok ds
    /\ Permutation (dict_keys (data_vars ds)) ["I"; "Q"]
    /\ dict_get (data_vars ds) "I" = Some (["qubit"; "freq"], vI)
    /\ dict_get (data_vars ds) "Q" = Some (["qubit"; "freq"], vQ)
    /\ shape vI = [2; 3] /\ shape vQ = [2; 3]
    /\ (forall k, item vI [0; k] = item i1 [k] /\ item vI [1; k] = item i2 [k])
    /\ (forall k, item vQ [0; k] = item q1 [k] /\ item vQ [1; k] = item q2 [k])
    /\ coords ds = rev (measurement_axis ++ [("qubit", qubit_names [qa; qb])])
    /\ coords ds = [("qubit", AxSeq [PyStr (name qa); PyStr (name qb)]);
                    ("freq", AxSeq [f0; f1; f2])].
Proof.
  intros Hset H1 H2 H3 H4 measurement_axis.
  destruct i1 as [s1 it1], i2 as [s2 it2], q1 as [s3 it3], q2 as [s4 it4].
  simpl in H1, H2, H3, H4. subst.
  destruct (Hset ["I"; "I"; "Q"; "Q"]) as [Hnd Hin].
  assert (Horder : list_of_set ["I"; "I"; "Q"; "Q"] = ["I"; "Q"]
                   \/ list_of_set ["I"; "I"; "Q"; "Q"] = ["Q"; "I"]).
  { apply two_element_orders; [discriminate | assumption |].
    intros x. rewrite Hin. simpl. intuition. }
  unfold fetch_results_as_xarray, meas_vars_of.
  change (flat_map _ (dict_keys _)) with ["I"; "I"; "Q"; "Q"].
  destruct Horder as [-> | ->].
  - eexists. exists (mkArr [2; 3] (fun idx =>
       match idx with
       | [] => None
       | i :: idx' => match nth_error [mkArr [3] it1; mkArr [3] it2] i with
                      | Some b => item b idx'
                      | None => None
                      end
       end)).
    exists (mkArr [2; 3] (fun idx =>
       match idx with
       | [] => None
       | i :: idx' => match nth_error [mkArr [3] it3; mkArr [3] it4] i with
                      | Some b => item b idx'
                      | None => None
                      end
       end)).
    split; [reflexivity|]. simpl.
    repeat split; auto.
  - eexists. exists (mkArr [2; 3] (fun idx =>
       match idx with
       | [] => None
       | i :: idx' => match nth_error [mkArr [3] it1; mkArr [3] it2] i with
                      | Some b => item b idx'
                      | None => None
                      end
       end)).
    exists (mkArr [2; 3] (fun idx =>
       match idx with
       | [] => None
       | i :: idx' => match nth_error [mkArr [3] it3; mkArr [3] it4] i with
                      | Some b => item b idx'
                      | None => None
                      end
       end)).
    split; [reflexivity|]. simpl.
    repeat split; auto. apply perm_swap.
Qed.

(** The example with the set iterated in order of first occurrence. *)
Lemma fetch_results_as_xarray_example_run :
  exists ds vI vQ,
    fetch_results_as_xarray (nodup string_dec)
      [("I1", Examples.trace3 10); ("I2", Examples.trace3 20);
       ("Q1", Examples.trace3 30); ("Q2", Examples.trace3 40)]
      [Examples.q1; Examples.q2]
      [("freq", AxSeq [PyInt 1; PyInt 2; PyInt 3])]
    = Ok ds
    /\ Permutation (dict_keys (data_vars ds)) ["I"; "Q"]
    /\ dict_get (data_vars ds) "I" = Some (["qubit"; "freq"], vI)
    /\ dict_get (data_vars ds) "Q" = Some (["qubit"; "freq"], vQ)
    /\ shape vI = [2; 3] /\ shape vQ = [2; 3]
    /\ (forall k, item vI [0; k] = item (Examples.trace3 10) [k]
                  /\ item vI [1; k] = item (Examples.trace3 20) [k])
    /\ (forall k, item vQ [0; k] = item (Examples.trace3 30) [k]
                  /\ item vQ [1; k] = item (Examples.trace3 40) [k])
    /\ coords ds = rev ([("freq", AxSeq [PyInt 1; PyInt 2; PyInt 3])]
                          ++ [("qubit", qubit_names [Examples.q1; Examples.q2])])
    /\ coords ds = [("qubit", AxSeq [PyStr "q1"; PyStr "q2"]);
                    ("freq", AxSeq [PyInt 1; PyInt 2; PyInt 3])].
Proof.
  exact (fetch_results_as_xarray_example Z (nodup string_dec)
           (Examples.trace3 10) (Examples.trace3 20) (Examples.trace3 30) (Examples.trace3 40)
           Examples.q1 Examples.q2 (PyInt 1) (PyInt 2) (PyInt 3)
           (fun l => conj (NoDup_nodup string_dec l) (fun x => nodup_In string_dec l x))
           eq_refl eq_refl eq_refl eq_refl).
Defined.

(** ** The validated assembler *)

Lemma list_Z_eqb_eq (a b : list Z) : list_Z_eqb a b = true <-> a = b.
Proof.
  revert b. induction a as [|x a IH]; intros [|y b]; simpl;
    try (split; [discriminate | intros [=]]); try tauto.
  rewrite andb_true_iff, Z.eqb_eq, IH. split.
  - intros [-> ->]. reflexivity.
  - intros [= -> ->]. auto.
Qed.

Lemma insert_sorted_perm (x : Z) (l : list Z) : Permutation (insert_sorted x l) (x :: l).
Proof.
  induction l as [|y l IH]; simpl; [reflexivity|].
  destruct (x <=? y)%Z; [reflexivity|].
  rewrite IH. apply perm_swap.
Qed.

Lemma sorted_perm (l : list Z) : Permutation (sorted l) l.
Proof.
  induction l as [|x l IH]; simpl; [reflexivity|].
  rewrite insert_sorted_perm. now constructor.
Qed.

Lemma tuple_index_from_found (t : list Z) (x : Z) (i : nat) :
  In x t ->
  exists p, tuple_index_from i t x = Ok (i + p)
            /\ p < List.length t /\ nth p t 0%Z = x.
Proof.
  revert i. induction t as [|y t IH]; intros i Hin; simpl; [destruct Hin|].
  destruct (Z.eqb_spec y x) as [-> | Hne].
  - exists 0. repeat split; [f_equal; lia | lia].
  - destruct Hin as [-> | Hin]; [congruence|].
    destruct (IH (S i) Hin) as (p & Hp & Hlt & Hnth).
    exists (S p). rewrite Hp. repeat split; [f_equal; lia | lia | assumption].
Qed.

(** The positions looked up for sizes that all occur in the shape. *)
Lemma tuple_index_all (got expected : list Z) :
  (forall x, In x expected -> In x got) ->
  exists perm, omap (tuple_index got) expected = Ok perm
               /\ Forall (fun p => p < List.length got) perm
               /\ map (fun p => nth p got 0%Z) perm = expected.
Proof.
  induction expected as [|x expected IH]; intros Hin; simpl.
  - exists []. repeat split. constructor.
  - destruct (tuple_index_from_found got x 0) as (p & Hp & Hlt & Hnth).
    { apply Hin. now left. }
    destruct IH as (perm & Hperm & Hall & Hmap).
    { intros y Hy. apply Hin. now right. }
    exists (p :: perm). unfold tuple_index at 1. rewrite Hp, Hperm. simpl.
    repeat split; [now constructor | now rewrite Hnth, Hmap].
Qed.

Lemma check_axes_ok (n : nat) (seen axes : list nat) :
  Forall (fun a => a < n) axes -> NoDup axes -> (forall a, In a axes -> ~ In a seen) ->
  check_axes n seen axes = Ok tt.
Proof.
  revert seen. induction axes as [|a axes IH]; intros seen Hlt Hnd Hseen; simpl;
    [reflexivity|].
  inversion Hlt as [|? ? Ha Hlt']; subst. inversion Hnd as [|? ? Hna Hnd']; subst.
  destruct (n <=? a)%nat eqn:Hle; [apply Nat.leb_le in Hle; lia|].
  destruct (existsb (Nat.eqb a) seen) eqn:He.
  - apply existsb_exists in He as (b & Hb & Hab). apply Nat.eqb_eq in Hab. subst b.
    exfalso. apply (Hseen a); simpl; auto.
  - apply IH; try assumption.
    intros b Hb [<- | Hin]; [contradiction|].
    apply (Hseen b); simpl; auto.
Qed.

Lemma check_axes_repeated (n : nat) (seen axes : list nat) :
  Forall (fun a => a < n) axes ->
  (exists a, In a axes /\ In a seen) \/ ~ NoDup axes ->
  check_axes n seen axes = Raise (mkExn ValueError "repeated axis in transpose").
Proof.
  revert seen. induction axes as [|a axes IH]; intros seen Hlt Hrep.
  - exfalso. destruct Hrep as [(a & [] & _) | Hnd]. apply Hnd. constructor.
  - inversion Hlt as [|? ? Ha Hlt']; subst. simpl.
    destruct (n <=? a)%nat eqn:Hle; [apply Nat.leb_le in Hle; lia|].
    destruct (existsb (Nat.eqb a) seen) eqn:He; [reflexivity|].
    apply IH; [assumption|].
    assert (Hseen : ~ In a seen).
    { intros Hin. apply Bool.not_true_iff_false in He. apply He.
      apply existsb_exists. exists a. split; [assumption | apply Nat.eqb_refl]. }
    destruct Hrep as [(b & [<- | Hb] & Hbs) | Hnd].
    + contradiction.
    + left. exists b. simpl. auto.
    + destruct (in_dec Nat.eq_dec a axes) as [Hin | Hnin].
      * left. exists a. simpl. auto.
      * right. intros Hnd'. apply Hnd. now constructor.
Qed.

Lemma omap_ok_map {A B} (f : A -> outcome B) (d : B) (l : list A) (r : list B) :
  omap f l = Ok r ->
  r = map (fun x => match f x with Ok y => y | Raise _ => d end) l.
Proof.
  revert r. induction l as [|x l IH]; intros r; simpl.
  - now intros [= <-].
  - destruct (f x) as [y|e]; simpl; [|discriminate].
    destruct (omap f l) as [ys|e]; simpl; [|discriminate].
    intros [= <-]. f_equal. now apply IH.
Qed.

Section ValidatedAssembler.

Variable elt : Type.
Implicit Types (raw : ndarray elt) (measurement_axis : odict axis_value).

(** A squeezed shape equal to the expected one: the array is used as it
    is. *)
Lemma match_axis_order_as_is (meas_var : string) (i : nat) raw measurement_axis :
  squeezed_shape raw = expected_shape measurement_axis ->
  match_axis_order meas_var i raw measurement_axis = Ok (squeeze raw).
Proof.
  intros H. unfold match_axis_order.
  apply list_Z_eqb_eq in H. now rewrite H.
Qed.

(** X21: different multisets of sizes: the error names the handle, that is the
    variable and the qubit position counted from 1, and both shapes. *)
Lemma match_axis_order_mismatch (meas_var : string) (i : nat) raw measurement_axis :
  sorted (squeezed_shape raw) <> sorted (expected_shape measurement_axis) ->
  match_axis_order meas_var i raw measurement_axis
  = Raise (mkExn ValueError
             ("Shape mismatch for " ++ meas_var ++ str_of_nat (i + 1) ++ ": got "
              ++ tuple_repr (shape (squeeze raw)) ++ ", expected "
              ++ list_repr (expected_shape measurement_axis))).
Proof.
  intros H. unfold match_axis_order.
  destruct (list_Z_eqb (squeezed_shape raw) (expected_shape measurement_axis)) eqn:He.
  - apply list_Z_eqb_eq in He. congruence.
  - destruct (list_Z_eqb (sorted (squeezed_shape raw))
                (sorted (expected_shape measurement_axis))) eqn:Hs; [|reflexivity].
    apply list_Z_eqb_eq in Hs. congruence.
Qed.

(** X22: the same multiset in another order, all sizes different: the array
    is transposed into the expected order, axis [k] of the result being
    the axis of the fetched array that has the size expected at [k]. *)
Lemma match_axis_order_transposed (meas_var : string) (i : nat) raw measurement_axis :
  squeezed_shape raw <> expected_shape measurement_axis ->
  sorted (squeezed_shape raw) = sorted (expected_shape measurement_axis) ->
  NoDup (expected_shape measurement_axis) ->
  exists perm arr,
    omap (tuple_index (squeezed_shape raw)) (expected_shape measurement_axis) = Ok perm
    /\ match_axis_order meas_var i raw measurement_axis = Ok arr
    /\ map Z.of_nat (shape arr) = expected_shape measurement_axis
    /\ forall idx,
         item arr idx
         = item (squeeze raw)
             (map (fun m => nth (position m perm) idx 0) (seq 0 (ndim (squeeze raw)))).
Proof.
  intros Hne Hs Hnd.
  assert (Hperm : Permutation (squeezed_shape raw) (expected_shape measurement_axis)).
  { rewrite <- (sorted_perm (squeezed_shape raw)), Hs. apply sorted_perm. }
  destruct (tuple_index_all (squeezed_shape raw) (expected_shape measurement_axis))
    as (perm & Hidx & Hlt & Hmap).
  { intros x Hx. apply (Permutation_in x (Permutation_sym Hperm) Hx). }
  assert (Hlen : List.length perm = ndim (squeeze raw)).
  { transitivity (List.length (expected_shape measurement_axis)).
    - rewrite <- Hmap. now rewrite length_map.
    - rewrite <- (Permutation_length Hperm). unfold squeezed_shape, ndim.
      now rewrite length_map. }
  assert (Hbound : Forall (fun a => a < ndim (squeeze raw)) perm).
  { unfold squeezed_shape in Hlt. rewrite length_map in Hlt. exact Hlt. }
  assert (Hnd' : NoDup perm).
  { apply (NoDup_map_inv (fun p => nth p (squeezed_shape raw) 0%Z)). now rewrite Hmap. }
  exists perm.
  eexists. split; [exact Hidx|]. split.
  - unfold match_axis_order.
    destruct (list_Z_eqb (squeezed_shape raw) (expected_shape measurement_axis)) eqn:He.
    { apply list_Z_eqb_eq in He. congruence. }
    simpl negb. cbv iota.
    rewrite (proj2 (list_Z_eqb_eq _ _) Hs), Hidx. simpl obind.
    unfold transpose. rewrite Hlen, Nat.eqb_refl. simpl negb. cbv iota.
    rewrite (check_axes_ok _ [] perm Hbound Hnd') by (intros a _ []).
    reflexivity.
  - split; [|reflexivity]. simpl. rewrite map_map. rewrite <- Hmap.
    apply map_ext. intros p. unfold squeezed_shape.
    change 0%Z with (Z.of_nat 0). now rewrite map_nth.
Qed.

(** X23: the same multiset in another order with a size that occurs twice:
    the positions looked up repeat an axis, and the transposition
    raises. *)
Lemma match_axis_order_repeated (meas_var : string) (i : nat) raw measurement_axis :
  squeezed_shape raw <> expected_shape measurement_axis ->
  sorted (squeezed_shape raw) = sorted (expected_shape measurement_axis) ->
  ~ NoDup (expected_shape measurement_axis) ->
  match_axis_order meas_var i raw measurement_axis
  = Raise (mkExn ValueError "repeated axis in transpose").
Proof.
  intros Hne Hs Hnd.
  assert (Hperm : Permutation (squeezed_shape raw) (expected_shape measurement_axis)).
  { rewrite <- (sorted_perm (squeezed_shape raw)), Hs. apply sorted_perm. }
  destruct (tuple_index_all (squeezed_shape raw) (expected_shape measurement_axis))
    as (perm & Hidx & Hlt & Hmap).
  { intros x Hx. apply (Permutation_in x (Permutation_sym Hperm) Hx). }
  assert (Hlen : List.length perm = ndim (squeeze raw)).
  { transitivity (List.length (expected_shape measurement_axis)).
    - rewrite <- Hmap. now rewrite length_map.
    - rewrite <- (Permutation_length Hperm). unfold squeezed_shape, ndim.
      now rewrite length_map. }
  assert (Hbound : Forall (fun a => a < ndim (squeeze raw)) perm).
  { unfold squeezed_shape in Hlt. rewrite length_map in Hlt. exact Hlt. }
  assert (Hnd' : ~ NoDup perm).
  { intros H. apply Hnd. rewrite (omap_ok_map _ 0 _ _ Hidx) in H.
    apply (NoDup_map_inv _ _ H). }
  unfold match_axis_order.
  destruct (list_Z_eqb (squeezed_shape raw) (expected_shape measurement_axis)) eqn:He.
  { apply list_Z_eqb_eq in He. congruence. }
  simpl negb. cbv iota.
  rewrite (proj2 (list_Z_eqb_eq _ _) Hs), Hidx. simpl obind.
  unfold transpose. rewrite Hlen, Nat.eqb_refl. simpl negb. cbv iota.
  rewrite (check_axes_repeated _ [] perm Hbound (or_intror Hnd')).
  reflexivity.
Qed.

End ValidatedAssembler.

(** C4, at a failing input: an array of shape [(3, 2, 2)] fetched where
    the axes expect [(2, 3, 2)].  The shapes differ and have the same
    multiset of sizes, the positions looked up are [1, 0, 1], and the
    transposition raises the [ValueError] of a repeated axis; so does the
    assembler. *)
Theorem match_axis_order_repeated_size :
  squeezed_shape Examples.grid322 <> expected_shape Examples.axes232
  /\ sorted (squeezed_shape Examples.grid322) = sorted (expected_shape Examples.axes232)
  /\ omap (tuple_index (squeezed_shape Examples.grid322)) (expected_shape Examples.axes232)
     = Ok [1; 0; 1]
  /\ match_axis_order "I" 0 Examples.grid322 Examples.axes232
     = Raise (mkExn ValueError "repeated axis in transpose")
  /\ fetch_single_shot_results_as_xarray (nodup string_dec)
       [("I1", Examples.grid322)] [Examples.q1] Examples.axes232
     = Raise (mkExn ValueError "repeated axis in transpose").
Proof. repeat split; try reflexivity. discriminate. Qed.

(** The two runs of the spec's test of the validated assembler: a fetch
    of shape [(3, 2)] where [(2, 3)] is expected is transposed, and one
    where [(4, 5)] is expected is refused with the name of the handle. *)
Example match_axis_order_permuted :
  exists arr,
    match_axis_order "I" 0 Examples.grid312 Examples.axes23 = Ok arr
    /\ shape arr = [2; 3]
    /\ forall i j, item arr [j; i] = item Examples.grid312 [i; 0; j].
Proof. eexists. repeat split. Qed.

Example match_axis_order_refused :
  match_axis_order "I" 0 Examples.grid312 Examples.axes45
  = Raise (mkExn ValueError "Shape mismatch for I1: got (3, 2), expected [4, 5]").
Proof. reflexivity. Qed.

(** * Further properties *)

(** ** Handle names and variable names *)

Lemma string_of_uint_head (d : Decimal.uint) :
  exists c r, NilZero.string_of_uint d = String c r /\ isdigit c = true.
Proof. destruct d; simpl; eexists; eexists; split; reflexivity. Qed.

Lemma string_app_assoc (a b c : string) : ((a ++ b) ++ c = a ++ (b ++ c))%string.
Proof. induction a as [|x a IH]; simpl; [reflexivity | now rewrite IH]. Qed.

(** X1: the name [f"{meas_var}{i + 1}"] under which the assemblers fetch
    the stream of a variable is parsed back to the variable exactly when
    the variable has no digit; a variable with a digit is parsed to the
    same shorter text as the variable alone. *)
Theorem handle_key_extract_string (meas_var : string) (i : nat) :
  (no_digit meas_var = true -> extract_string (handle_key meas_var i) = Some meas_var)
  /\ (no_digit meas_var = false ->
      extract_string (handle_key meas_var i) = extract_string meas_var
      /\ extract_string (handle_key meas_var i) <> Some meas_var).
Proof.
  unfold handle_key, str_of_nat. split.
  - intros Hv.
    destruct (string_of_uint_head (Nat.to_uint (i + 1))) as (c & r & -> & Hc).
    now apply extract_string_prefix.
  - intros Hv.
    destruct (split_at_first_digit meas_var Hv) as (p & c & r & -> & Hp & Hc).
    rewrite string_app_assoc. simpl.
    rewrite !extract_string_prefix by assumption.
    split; [reflexivity|]. intros [= H].
    apply (f_equal String.length) in H. rewrite length_app in H. simpl in H. lia.
Qed.

Lemma extract_string_some (key v : string) :
  extract_string key = Some v
  <-> exists c r, key = (v ++ String c r)%string /\ no_digit v = true /\ isdigit c = true.
Proof.
  split.
  - intros H. destruct (no_digit key) eqn:Hk.
    + unfold extract_string in H. rewrite first_digit_index_none in H by assumption.
      discriminate.
    + destruct (split_at_first_digit key Hk) as (p & c & r & -> & Hp & Hc).
      rewrite extract_string_prefix in H by assumption. inversion H; subst. eauto.
  - intros (c & r & -> & Hv & Hc). now apply extract_string_prefix.
Qed.

Lemma omap_raise_all {A B} (f : A -> outcome B) (l : list A) (e0 : exn) :
  (forall x e, f x = Raise e -> e = e0) ->
  forall e, omap f l = Raise e -> e = e0.
Proof.
  intros Hf e H. apply omap_raise in H as (x & _ & Hx). eauto.
Qed.

Lemma omap_ok_all {A B} (f : A -> outcome B) (l : list A) (r : list B) :
  omap f l = Ok r -> forall x, In x l -> exists y, f x = Ok y.
Proof.
  revert r. induction l as [|a l IH]; intros r H x Hin; simpl in *; [destruct Hin|].
  destruct (f a) as [y|e] eqn:Ha; simpl in H; [|discriminate].
  destruct (omap f l) as [ys|e]; simpl in H; [|discriminate].
  destruct Hin as [<- | Hin]; eauto.
Qed.

Lemma in_enumerate {A} (l : list A) (i : nat) :
  i < List.length l -> exists x, In (i, x) (enumerate l).
Proof.
  unfold enumerate.
  assert (H : forall start, i < List.length l ->
                exists x, In (start + i, x) (combine (seq start (List.length l)) l)).
  { revert i. induction l as [|a l IH]; intros i start Hi; simpl in *; [lia|].
    destruct i as [|i].
    - exists a. left. f_equal. lia.
    - destruct (IH i (S start)) as (x & Hx); [lia|].
      exists x. right. now replace (start + S i) with (S start + i) by lia. }
  intros Hi. apply (H 0 Hi).
Qed.

Section HandleNames.

Variable elt : Type.
Variable list_of_set : list string -> list string.
Hypothesis list_of_set_spec :
  forall l, NoDup (list_of_set l) /\ forall x, In x (list_of_set l) <-> In x l.

(** X2: the variable names are, each once, the texts before the first
    digit of the handle names that have a digit; so no variable name has a
    digit, and a handle name without a digit gives no variable. *)
Theorem meas_vars_of_spec (handles : stream_handles elt) :
  NoDup (meas_vars_of list_of_set handles)
  /\ forall v,
       In v (meas_vars_of list_of_set handles)
       <-> exists key c r,
             In key (dict_keys handles) /\ key = (v ++ String c r)%string
             /\ no_digit v = true /\ isdigit c = true.
Proof.
  unfold meas_vars_of. split; [apply list_of_set_spec|].
  intros v. rewrite (proj2 (list_of_set_spec _)), in_flat_map. split.
  - intros (key & Hkey & Hv).
    destruct (extract_string key) as [s|] eqn:He; [|destruct Hv].
    destruct Hv as [<- | []].
    apply extract_string_some in He as (c & r & Heq & Hs & Hc).
    exists key, c, r. auto.
  - intros (key & c & r & Hkey & Heq & Hv & Hc).
    exists key. split; [assumption|].
    rewrite (proj2 (extract_string_some key v)) by eauto. now left.
Qed.

(** X3: when the handle of some variable and some qubit position is
    missing, the standard assembler raises the [AttributeError] of calling
    [fetch_all] on [None], and the validated assembler raises too: neither
    returns a dataset. *)
Theorem fetch_missing_handle
  (handles : stream_handles elt) (qs : list qubit) (measurement_axis : odict axis_value)
  (v : string) (i : nat) :
  In v (meas_vars_of list_of_set handles) ->
  i < List.length qs ->
  dict_get handles (handle_key v i) = None ->
  fetch_results_as_xarray list_of_set handles qs measurement_axis
  = Raise (mkExn AttributeError "'NoneType' object has no attribute 'fetch_all'")
  /\ exists e, fetch_single_shot_results_as_xarray list_of_set handles qs measurement_axis
               = Raise e.
Proof.
  intros Hv Hi Hnone.
  destruct (in_enumerate qs i Hi) as (q & Hq).
  set (e0 := mkExn AttributeError "'NoneType' object has no attribute 'fetch_all'").
  assert (Hfetch : fetch_all handles (handle_key v i) = Raise e0).
  { unfold fetch_all. now rewrite Hnone. }
  split.
  - unfold fetch_results_as_xarray.
    set (row := fun meas_var : string =>
                  omap (fun iq : nat * qubit => fetch_all handles (handle_key meas_var (fst iq)))
                       (enumerate qs)).
    assert (Hrow : forall x e, row x = Raise e -> e = e0).
    { intros x e. unfold row. apply omap_raise_all.
      intros iq e'. unfold fetch_all.
      destruct (dict_get handles (handle_key x (fst iq))); [discriminate|].
      intros H. now inversion H. }
    destruct (omap_fails (fun iq : nat * qubit => fetch_all handles (handle_key v (fst iq)))
                (enumerate qs) (i, q) e0 Hq Hfetch) as (e1 & _ & He1 & _).
    destruct (omap_fails row (meas_vars_of list_of_set handles) v e1 Hv He1)
      as (e2 & _ & He2 & _).
    rewrite He2. simpl. f_equal. eapply omap_raise_all; eassumption.
  - unfold fetch_single_shot_results_as_xarray.
    match goal with
    | |- context [omap ?f (meas_vars_of list_of_set handles)] =>
        destruct (omap f (meas_vars_of list_of_set handles)) as [values|e] eqn:Hvalues
    end; [exfalso | simpl; eauto].
    destruct (omap_ok_all _ _ _ Hvalues v Hv) as (col & Hcol). simpl in Hcol.
    match type of Hcol with
    | context [omap ?f (enumerate qs)] =>
        destruct (omap f (enumerate qs)) as [qubit_data|e] eqn:Hdata
    end; [|discriminate].
    destruct (omap_ok_all _ _ _ Hdata (i, q) Hq) as (arr & Harr). simpl in Harr.
    rewrite Hfetch in Harr. discriminate.
Qed.

End HandleNames.

(** ** The validated assembler, fetch by fetch *)

Lemma tuple_index_from_ok (t : list Z) (x : Z) (i p : nat) :
  tuple_index_from i t x = Ok p -> exists k, p = i + k /\ nth k t 0%Z = x.
Proof.
  revert i. induction t as [|y t IH]; intros i; simpl; [discriminate|].
  destruct (Z.eqb_spec y x) as [-> | Hne].
  - intros [= <-]. exists 0. split; [lia | reflexivity].
  - intros H. destruct (IH (S i) H) as (k & -> & Hk).
    exists (S k). split; [lia | assumption].
Qed.

Lemma tuple_index_positions (got expected : list Z) (perm : list nat) :
  omap (tuple_index got) expected = Ok perm ->
  map (fun p => nth p got 0%Z) perm = expected.
Proof.
  revert perm. induction expected as [|x expected IH]; intros perm; simpl.
  - now intros [= <-].
  - destruct (tuple_index got x) as [p|e] eqn:Hp; simpl; [|discriminate].
    destruct (omap (tuple_index got) expected) as [ps|e]; simpl; [|discriminate].
    intros [= <-]. simpl.
    apply tuple_index_from_ok in Hp as (k & -> & Hk). simpl.
    now rewrite Hk, (IH ps eq_refl).
Qed.

Lemma squeezed_shape_sizes (elt : Type) (raw : ndarray elt) (s : Z) :
  In s (squeezed_shape raw) -> (0 <= s)%Z /\ s <> 1%Z.
Proof.
  unfold squeezed_shape. simpl. rewrite in_map_iff.
  intros (d & <- & Hd). apply filter_In in Hd as [_ Hd].
  apply negb_true_iff, Nat.eqb_neq in Hd. lia.
Qed.

Section FetchByFetch.

Variable elt : Type.
Implicit Types (raw arr : ndarray elt) (measurement_axis : odict axis_value).

Lemma match_axis_order_ok_shape (meas_var : string) (i : nat) raw measurement_axis arr :
  match_axis_order meas_var i raw measurement_axis = Ok arr ->
  map Z.of_nat (shape arr) = expected_shape measurement_axis.
Proof.
  unfold match_axis_order.
  destruct (list_Z_eqb (squeezed_shape raw) (expected_shape measurement_axis)) eqn:He;
    simpl negb; cbv iota.
  - intros [= <-]. now apply list_Z_eqb_eq in He.
  - destruct (list_Z_eqb (sorted (squeezed_shape raw))
                (sorted (expected_shape measurement_axis))); [|discriminate].
    destruct (omap (tuple_index (squeezed_shape raw)) (expected_shape measurement_axis))
      as [perm|e] eqn:Hidx; simpl; [|discriminate].
    intros Ht. unfold transpose in Ht.
    destruct (negb (List.length perm =? ndim (squeeze raw))%nat); [discriminate|].
    destruct (check_axes (ndim (squeeze raw)) [] perm); simpl in Ht; [|discriminate].
    inversion Ht; subst arr. simpl shape.
    rewrite map_map, <- (tuple_index_positions _ _ _ Hidx).
    apply map_ext. intros p. unfold squeezed_shape.
    change 0%Z with (Z.of_nat 0). now rewrite map_nth.
Qed.

(** X4: whenever the step on one fetch succeeds, the array it gives has
    exactly the expected shape, and it is the squeezed fetch itself or its
    transposition along the positions looked up for the expected sizes. *)
Theorem match_axis_order_shape (meas_var : string) (i : nat) raw measurement_axis arr :
  match_axis_order meas_var i raw measurement_axis = Ok arr ->
  map Z.of_nat (shape arr) = expected_shape measurement_axis
  /\ (arr = squeeze raw
      \/ exists perm,
           omap (tuple_index (squeezed_shape raw)) (expected_shape measurement_axis) = Ok perm
           /\ transpose (squeeze raw) perm = Ok arr).
Proof.
  intros H. split; [exact (match_axis_order_ok_shape _ _ _ _ _ H)|].
  unfold match_axis_order in H.
  destruct (list_Z_eqb (squeezed_shape raw) (expected_shape measurement_axis));
    simpl negb in H; cbv iota in H.
  - left. now inversion H.
  - destruct (list_Z_eqb (sorted (squeezed_shape raw))
                (sorted (expected_shape measurement_axis))); [|discriminate].
    destruct (omap (tuple_index (squeezed_shape raw)) (expected_shape measurement_axis))
      as [perm|e]; simpl in H; [|discriminate].
    right. eauto.
Qed.

(** X5: an expected size of 1, as an axis with a single coordinate value
    gives, or below 0 is never met by a squeezed fetch: the step refuses
    every fetch with the error of mismatched shapes. *)
Theorem match_axis_order_singleton_axis
  (meas_var : string) (i : nat) raw measurement_axis (s : Z) :
  In s (expected_shape measurement_axis) -> (s = 1 \/ s < 0)%Z ->
  match_axis_order meas_var i raw measurement_axis
  = Raise (mkExn ValueError
             ("Shape mismatch for " ++ meas_var ++ str_of_nat (i + 1) ++ ": got "
              ++ tuple_repr (shape (squeeze raw)) ++ ", expected "
              ++ list_repr (expected_shape measurement_axis))).
Proof.
  intros Hin Hs.
  assert (Hnot : ~ In s (squeezed_shape raw)).
  { intros H. apply squeezed_shape_sizes in H. lia. }
  unfold match_axis_order.
  destruct (list_Z_eqb (squeezed_shape raw) (expected_shape measurement_axis)) eqn:He.
  { apply list_Z_eqb_eq in He. rewrite He in Hnot. contradiction. }
  destruct (list_Z_eqb (sorted (squeezed_shape raw))
              (sorted (expected_shape measurement_axis))) eqn:Hsort; [|reflexivity].
  exfalso. apply list_Z_eqb_eq in Hsort. apply Hnot.
  apply (Permutation_in s (sorted_perm _)). rewrite Hsort.
  apply (Permutation_in s (Permutation_sym (sorted_perm _))). assumption.
Qed.

End FetchByFetch.

(** ** The validated assembler, the dataset *)

Lemma omap_ok_in {A B} (f : A -> outcome B) (l : list A) (r : list B) :
  omap f l = Ok r -> forall y, In y r -> exists x, In x l /\ f x = Ok y.
Proof.
  revert r. induction l as [|a l IH]; intros r; simpl.
  - intros [= <-] y [].
  - destruct (f a) as [b|e] eqn:Ha; simpl; [|discriminate].
    destruct (omap f l) as [bs|e]; simpl; [|discriminate].
    intros [= <-] y [<- | Hy]; [eauto|].
    destruct (IH bs eq_refl y Hy) as (x & Hx & Hfx). eauto.
Qed.

Lemma omap_length {A B} (f : A -> outcome B) (l : list A) (r : list B) :
  omap f l = Ok r -> List.length r = List.length l.
Proof.
  revert r. induction l as [|a l IH]; intros r; simpl.
  - now intros [= <-].
  - destruct (f a) as [b|e]; simpl; [|discriminate].
    destruct (omap f l) as [bs|e]; simpl; [|discriminate].
    intros [= <-]. simpl. f_equal. now apply IH.
Qed.

Lemma enumerate_length {A} (l : list A) : List.length (enumerate l) = List.length l.
Proof. unfold enumerate. rewrite length_combine, length_seq. apply Nat.min_id. Qed.

Lemma map_fst_combine {A B} (l : list A) (r : list B) :
  List.length l = List.length r -> map fst (combine l r) = l.
Proof.
  revert r. induction l as [|a l IH]; intros [|b r]; simpl; try discriminate;
    [reflexivity|].
  intros [= H]. now rewrite IH.
Qed.

(** X6: a dataset that the validated assembler returns has one variable
    for each variable name, in their order; each variable has the
    dimensions [qubit] and then the axes in their original order, and the
    shape of the number of qubits followed by the expected shape; the
    coordinates are the qubit names merged with the axis specification. *)
Theorem fetch_single_shot_results_as_xarray_shapes
  (elt : Type) (list_of_set : list string -> list string)
  (handles : stream_handles elt) (qs : list qubit) (measurement_axis : odict axis_value)
  (ds : dataset elt) :
  fetch_single_shot_results_as_xarray list_of_set handles qs measurement_axis = Ok ds ->
  coords ds = coords_with_qubit qs measurement_axis
  /\ dict_keys (data_vars ds) = meas_vars_of list_of_set handles
  /\ forall v dims arr,
       In (v, (dims, arr)) (data_vars ds) ->
       dims = "qubit" :: dict_keys measurement_axis
       /\ exists s, shape arr = List.length qs :: s
                    /\ map Z.of_nat s = expected_shape measurement_axis.
Proof.
  unfold fetch_single_shot_results_as_xarray.
  match goal with
  | |- context [omap ?f (meas_vars_of list_of_set handles)] =>
      destruct (omap f (meas_vars_of list_of_set handles)) as [values|e] eqn:Hvalues
  end; simpl; [|discriminate].
  unfold xr_Dataset.
  match goal with
  | |- context [negb (forallb ?f ?l)] => destruct (forallb f l) eqn:Hndim
  end; simpl; [|discriminate].
  destruct (existsb _ _); [discriminate|].
  destruct (negb (sizes_agree _)); [discriminate|].
  intros [= <-]. simpl. split; [reflexivity|]. split.
  { unfold dict_keys. rewrite map_map. simpl.
    change (fun x : string * ndarray elt => fst x) with (@fst string (ndarray elt)).
    apply map_fst_combine. symmetry. apply (omap_length _ _ _ Hvalues). }
  intros v dims arr Hin.
  assert (Hcheck := Hin).
  rewrite forallb_forall in Hndim. apply Hndim in Hcheck. simpl in Hcheck.
  apply Nat.eqb_eq in Hcheck.
  apply in_map_iff in Hin as ([v' arr'] & Heq & Hc). simpl in Heq.
  inversion Heq; subst v' dims arr'. clear Heq.
  split; [reflexivity|].
  apply in_combine_r in Hc.
  destruct (omap_ok_in _ _ _ Hvalues arr Hc) as (v0 & _ & Hv0). simpl in Hv0.
  match type of Hv0 with
  | context [omap ?f (enumerate qs)] =>
      destruct (omap f (enumerate qs)) as [qubit_data|e] eqn:Hdata
  end; simpl in Hv0; [|discriminate].
  assert (Hlen : List.length qubit_data = List.length qs).
  { rewrite (omap_length _ _ _ Hdata). apply enumerate_length. }
  destruct qubit_data as [|a rest].
  - simpl in Hv0. inversion Hv0; subst arr. simpl in *.
    exists []. rewrite <- Hlen. split; [reflexivity|].
    unfold dict_keys in Hcheck. rewrite length_map in Hcheck.
    destruct measurement_axis; [reflexivity | discriminate].
  - unfold stack in Hv0.
    destruct (forallb _ rest); [|discriminate].
    inversion Hv0; subst arr. simpl shape.
    exists (shape a). rewrite <- Hlen. split; [reflexivity|].
    destruct (omap_ok_in _ _ _ Hdata a (or_introl eq_refl)) as (iq & _ & Ha).
    simpl in Ha. destruct (fetch_all handles _) as [raw|e]; simpl in Ha; [|discriminate].
    apply (match_axis_order_ok_shape _ _ _ _ _ _ Ha).
Qed.

(** ** The loader, what a result implies *)

Lemma io_bind_inv_ok {A B} (m : io A) (k : A -> io B) (b : B) :
  fst (io_bind m k) = Ok b -> exists a, fst m = Ok a /\ fst (k a) = Ok b.
Proof.
  destruct m as [[a|e] t]; unfold io_bind; simpl; [eauto | discriminate].
Qed.

Section LoaderResults.

Variable elt : Type.
Implicit Types (w : world elt) (ds : dataset elt).

Lemma load_files_inv_ok w (base_folder f : string) (parameters : option parameters_obj)
  (r : option (bundle elt)) :
  fst (load_files w base_folder f parameters) = Ok r ->
  exists ds machine json_data qs,
    fst (xr_open_dataset w (path_join base_folder f)) = Ok ds
    /\ fst (json_load w (path_join base_folder "data.json")) = Ok json_data
    /\ fst (load_machine w (Some base_folder)) = Ok machine
    /\ cross_reference machine ds = Ok qs
    /\ match parameters with
       | None => r = Some (Bundle4 ds machine json_data qs)
       | Some p => exists p', overlay json_data p = Ok p'
                              /\ r = Some (Bundle5 ds machine json_data qs p')
       end.
Proof.
  unfold load_files. intros H.
  apply io_bind_inv_ok in H as (ds & Hds & H).
  apply io_bind_inv_ok in H as (json_data & Hj & H).
  apply io_bind_inv_ok in H as (machine & Hm & H).
  apply io_bind_inv_ok in H as (qs & Hqs & H).
  exists ds, machine, json_data, qs. repeat (split; [assumption|]).
  destruct parameters as [p|].
  - apply io_bind_inv_ok in H as (p' & Hp' & H). exists p'. split; [assumption|].
    simpl in H. now inversion H.
  - simpl in H. now inversion H.
Qed.

(** X7: whenever the loader returns a bundle, [serial_number] is an
    instance of [int], its folder was found and listed, the data file is
    the first listed [.h5] file whose name up to the first dot is
    [target_filename], and the parts of the bundle are what was read from
    that file, from [data.json] and from the state file of that folder,
    with the qubits of the cross-reference; the bundle has four parts
    without a parameters object and five with one. *)
Theorem load_dataset_bundle_inv
  w (serial_number : pyval) (target_filename : string)
  (parameters : option parameters_obj) (b : bundle elt) :
  fst (load_dataset w serial_number target_filename parameters) = Ok (Some b) ->
  exists base_folder names t f ds machine json_data qs,
    isinstance_int serial_number = true
    /\ find_numbered_folder (fs w) (path_str (storage_location w)) serial_number
       = Some base_folder
    /\ os_listdir w (Some base_folder) = (Ok names, t)
    /\ hd_error (filter (has_stem target_filename) (filter is_h5 names)) = Some f
    /\ fst (xr_open_dataset w (path_join base_folder f)) = Ok ds
    /\ fst (json_load w (path_join base_folder "data.json")) = Ok json_data
    /\ fst (load_machine w (Some base_folder)) = Ok machine
    /\ cross_reference machine ds = Ok qs
    /\ match parameters with
       | None => b = Bundle4 ds machine json_data qs
       | Some p => exists p', overlay json_data p = Ok p'
                              /\ b = Bundle5 ds machine json_data qs p'
       end.
Proof.
  intros H.
  destruct (isinstance_int serial_number) eqn:Hint;
    [|unfold load_dataset in H; rewrite Hint in H; discriminate].
  rewrite (load_dataset_int _ _ _ _ _ Hint) in H. simpl fst in H.
  destruct (find_numbered_folder (fs w) (path_str (storage_location w)) serial_number)
    as [base_folder|] eqn:Hfind.
  - destruct (os_listdir w (Some base_folder)) as [[names|e] t] eqn:Hl.
    + destruct (hd_error (filter (has_stem target_filename) (filter is_h5 names)))
        as [f|] eqn:Hf.
      * rewrite (load_from_folder_found _ _ _ _ _ _ _ _ Hl Hf), io_bind_ok in H.
        simpl fst in H.
        destruct (load_files_inv_ok _ _ _ _ _ H)
          as (ds & machine & json_data & qs & Hds & Hj & Hm & Hqs & Hb).
        exists base_folder, names, t, f, ds, machine, json_data, qs.
        repeat (split; [first [assumption | reflexivity]|]).
        destruct parameters as [p|].
        -- destruct Hb as (p' & Hp' & [= ->]). exists p'. split; [assumption | reflexivity].
        -- now inversion Hb.
      * destruct (filter is_h5 names) as [|x l] eqn:Hnc.
        -- unfold load_from_folder in H. rewrite Hl, io_bind_ok in H.
           cbv beta zeta in H. rewrite Hnc in H. discriminate.
        -- rewrite (load_from_folder_target_missing _ _ _ _ _ _ _ Hl) in H;
             [discriminate | congruence |].
           rewrite Hnc. destruct (filter (has_stem target_filename) (x :: l));
             [reflexivity | discriminate].
    + unfold load_from_folder in H. rewrite Hl in H. discriminate.
  - destruct (os_listdir w None) as [[names|e] t] eqn:Hl.
    + rewrite (load_from_folder_no_folder _ _ _ _ _ _ Hl) in H.
      destruct (filter is_h5 names); discriminate.
    + unfold load_from_folder in H. rewrite Hl in H. discriminate.
Qed.

End LoaderResults.

(** ** The loader, the other ways out *)

Section LoaderWaysOut.

Variable elt : Type.
Implicit Types (w : world elt) (ds : dataset elt).

(** X8: the loader returns [None] exactly when [serial_number] is an
    instance of [int] and the listing, of the folder found or else of the
    current directory, succeeds and has no [.h5] file; its last act is
    then to print that no file was found in the folder. *)
Theorem load_dataset_none
  w (serial_number : pyval) (target_filename : string) (parameters : option parameters_obj) :
  let storage := path_str (storage_location w) in
  let base_folder := find_numbered_folder (fs w) storage serial_number in
  (fst (load_dataset w serial_number target_filename parameters) = Ok None
   <-> isinstance_int serial_number = true
       /\ exists names t, os_listdir w base_folder = (Ok names, t)
                          /\ filter is_h5 names = [])
  /\ (forall names t,
        isinstance_int serial_number = true ->
        os_listdir w base_folder = (Ok names, t) -> filter is_h5 names = [] ->
        load_dataset w serial_number target_filename parameters
        = (Ok None,
           [EvSettings; EvWalk storage] ++ t
             ++ [EvPrint ("No .nc file found in folder: " ++ opt_str base_folder)])).
Proof.
  intros storage base_folder.
  assert (Hnone : forall names t,
             isinstance_int serial_number = true ->
             os_listdir w base_folder = (Ok names, t) -> filter is_h5 names = [] ->
             load_dataset w serial_number target_filename parameters
             = (Ok None,
                [EvSettings; EvWalk storage] ++ t
                  ++ [EvPrint ("No .nc file found in folder: " ++ opt_str base_folder)])).
  { intros names t Hint Hl Hnc. rewrite (load_dataset_int _ _ _ _ _ Hint).
    fold storage. fold base_folder. unfold load_from_folder.
    rewrite Hl, io_bind_ok. cbv beta zeta. rewrite Hnc. reflexivity. }
  split; [|exact Hnone]. split.
  - intros H.
    destruct (isinstance_int serial_number) eqn:Hint;
      [|unfold load_dataset in H; rewrite Hint in H; discriminate].
    split; [reflexivity|].
    rewrite (load_dataset_int _ _ _ _ _ Hint) in H. simpl fst in H.
    fold storage in H. fold base_folder in H.
    destruct (os_listdir w base_folder) as [[names|e] t] eqn:Hl;
      [|unfold load_from_folder in H; rewrite Hl in H; discriminate].
    exists names, t. split; [reflexivity|].
    destruct (filter is_h5 names) as [|x l] eqn:Hnc; [reflexivity|exfalso].
    destruct base_folder as [bf|].
    + destruct (hd_error (filter (has_stem target_filename) (filter is_h5 names)))
        as [f|] eqn:Hf.
      * rewrite (load_from_folder_found _ _ _ _ _ _ _ _ Hl Hf), io_bind_ok in H.
        simpl fst in H.
        destruct (load_files_inv_ok _ _ _ _ _ _ H) as (? & ? & ? & ? & _ & _ & _ & _ & Hb).
        destruct parameters; [destruct Hb as (? & _ & ?)|]; discriminate.
      * rewrite (load_from_folder_target_missing _ _ _ _ _ _ _ Hl) in H;
          [discriminate | congruence |].
        destruct (filter (has_stem target_filename) (filter is_h5 names));
          [reflexivity | discriminate].
    + rewrite (load_from_folder_no_folder _ _ _ _ _ _ Hl), Hnc in H. discriminate.
  - intros (Hint & names & t & Hl & Hnc). now rewrite (Hnone names t Hint Hl Hnc).
Qed.

(** X9: without a folder the loader lists the current directory; it
    returns [None] when no [.h5] file is there and raises a [TypeError],
    from joining [None] with a file name, when one is. *)
Theorem load_dataset_without_folder
  w (serial_number : pyval) (target_filename : string) (parameters : option parameters_obj)
  (names : list string) (t : list event) :
  isinstance_int serial_number = true ->
  find_numbered_folder (fs w) (path_str (storage_location w)) serial_number = None ->
  os_listdir w None = (Ok names, t) ->
  load_dataset w serial_number target_filename parameters
  = match filter is_h5 names with
    | [] => (Ok None,
             [EvSettings; EvWalk (path_str (storage_location w))] ++ t
               ++ [EvPrint "No .nc file found in folder: None"])
    | _ :: _ =>
        (Raise (mkExn TypeError "expected str, bytes or os.PathLike object, not NoneType"),
         [EvSettings; EvWalk (path_str (storage_location w))] ++ t)
    end.
Proof.
  intros Hint Hfind Hl.
  rewrite (load_dataset_int _ _ _ _ _ Hint), Hfind.
  rewrite (load_from_folder_no_folder _ _ _ _ _ _ Hl).
  now destruct (filter is_h5 names).
Qed.

(** X10: in a folder that has [.h5] files but none whose name up to the
    first dot is [target_filename], the loader raises a [TypeError], from
    joining the folder with [None], right after the listing: no file is
    opened. *)
Theorem load_dataset_target_missing
  w (serial_number : pyval) (base_folder target_filename : string)
  (parameters : option parameters_obj) (names : list string) (t : list event) :
  isinstance_int serial_number = true ->
  find_numbered_folder (fs w) (path_str (storage_location w)) serial_number
    = Some base_folder ->
  os_listdir w (Some base_folder) = (Ok names, t) ->
  filter is_h5 names <> [] ->
  filter (has_stem target_filename) (filter is_h5 names) = [] ->
  load_dataset w serial_number target_filename parameters
  = (Raise (mkExn TypeError "expected str, bytes or os.PathLike object, not NoneType"),
     [EvSettings; EvWalk (path_str (storage_location w))] ++ t).
Proof.
  intros Hint Hfind Hl Hnc Hf.
  rewrite (load_dataset_int _ _ _ _ _ Hint), Hfind.
  now rewrite (load_from_folder_target_missing _ _ _ _ _ _ _ Hl Hnc Hf).
Qed.

End LoaderWaysOut.

Lemma split_dot_head_lacks_dot (s : string) : lacks "." (split_dot_head s) = true.
Proof.
  induction s as [|c s IH]; simpl; [reflexivity|].
  destruct (Ascii.eqb c ".") eqn:Hc; simpl; [reflexivity|].
  now rewrite Hc, IH.
Qed.

(** X11: a [target_filename] with a dot in it, such as [ds.h5], is the
    name up to the first dot of no file: whatever [.h5] files the folder
    holds, the loader raises the [TypeError] of the missing data file. *)
Theorem load_dataset_dotted_target
  (elt : Type) (w : world elt) (serial_number : pyval) (base_folder target_filename : string)
  (parameters : option parameters_obj) (names : list string) (t : list event) :
  isinstance_int serial_number = true ->
  find_numbered_folder (fs w) (path_str (storage_location w)) serial_number
    = Some base_folder ->
  os_listdir w (Some base_folder) = (Ok names, t) ->
  filter is_h5 names <> [] ->
  lacks "." target_filename = false ->
  load_dataset w serial_number target_filename parameters
  = (Raise (mkExn TypeError "expected str, bytes or os.PathLike object, not NoneType"),
     [EvSettings; EvWalk (path_str (storage_location w))] ++ t).
Proof.
  intros Hint Hfind Hl Hnc Hdot.
  rewrite (load_dataset_int _ _ _ _ _ Hint), Hfind.
  rewrite (load_from_folder_target_missing _ _ _ _ _ _ _ Hl Hnc); [reflexivity|].
  induction (filter is_h5 names) as [|x l IH]; simpl; [reflexivity|].
  unfold has_stem at 1.
  destruct (String.eqb_spec target_filename (split_dot_head x)) as [Heq|_].
  - rewrite Heq, split_dot_head_lacks_dot in Hdot. discriminate.
  - destruct l; [reflexivity | apply IH; discriminate].
Qed.

(** ** The cross-reference of the qubits *)

Lemma omap_forall2 {A B} (f : A -> outcome B) (l : list A) (r : list B) :
  omap f l = Ok r -> Forall2 (fun x y => f x = Ok y) l r.
Proof.
  revert r. induction l as [|a l IH]; intros r; simpl.
  - intros [= <-]. constructor.
  - destruct (f a) as [b|e] eqn:Ha; simpl; [|discriminate].
    destruct (omap f l) as [bs|e]; simpl; [|discriminate].
    intros [= <-]. constructor; [assumption | now apply IH].
Qed.

(** X12: when the cross-reference succeeds, the qubits it gives are, in
    the order of the dataset's qubit coordinate and one for each of its
    values, the entries of the registry under those values, which are all
    strings; the calibration state can be absent only when the coordinate
    has no value. *)
Theorem cross_reference_ok
  (elt : Type) (machine : option quam) (ds : dataset elt) (qs : list qubit) :
  cross_reference machine ds = Ok qs ->
  exists names,
    ds_qubit_values ds = Ok names
    /\ Forall2 (fun qname q =>
                  exists m s, machine = Some m /\ qname = PyStr s
                              /\ dict_get (qubits m) s = Some q) names qs
    /\ (machine = None -> names = [] /\ qs = []).
Proof.
  unfold cross_reference.
  destruct (ds_qubit_values ds) as [names|e]; simpl; [|discriminate].
  intros H. exists names. split; [reflexivity|].
  apply omap_forall2 in H.
  assert (HF : Forall2 (fun qname q =>
                 exists m s, machine = Some m /\ qname = PyStr s
                             /\ dict_get (qubits m) s = Some q) names qs).
  { induction H as [|qname q names qs Hq _ IH]; constructor; [|assumption].
    unfold machine_qubit in Hq. destruct machine as [m|]; [|discriminate].
    destruct qname; try discriminate.
    destruct (dict_get (qubits m) s) eqn:Hs; [|discriminate].
    inversion Hq; subst. eauto. }
  split; [assumption|].
  intros ->. destruct HF as [|? ? ? ? (m & s & Hm & _)]; [auto | discriminate].
Qed.

(** ** The loop over the parameters, for any metadata *)

Lemma overlay_step_inv (json_data : json) (p p' : parameters_obj) (n : string) :
  overlay_step json_data p n = Ok p' ->
  p' = p
  \/ (n <> "load_data_id"
      /\ exists initial v,
           json_getitem json_data "initial_parameters" = Ok initial
           /\ json_getitem initial n = Ok v /\ p' = dict_set p n v).
Proof.
  unfold overlay_step.
  destruct (String.eqb_spec n "load_data_id") as [->|Hn]; simpl.
  - intros [= <-]. now left.
  - destruct (json_getitem json_data "initial_parameters") as [initial|e]; simpl;
      [|discriminate].
    destruct (json_contains initial n) as [[|]|e]; simpl; try discriminate.
    + destruct (json_getitem initial n) as [v|e] eqn:Hv; simpl; [|discriminate].
      intros [= <-]. right. split; [assumption|]. eauto.
    + intros [= <-]. now left.
Qed.

Lemma overlay_loop_inv (json_data : json) (names : list string) :
  forall p p',
    (forall n, In n names -> dict_mem p n = true) ->
    overlay_loop json_data names p = Ok p' ->
    dict_keys p' = dict_keys p
    /\ dict_get p' "load_data_id" = dict_get p "load_data_id"
    /\ forall name,
         dict_get p' name = dict_get p name
         \/ exists initial v,
              json_getitem json_data "initial_parameters" = Ok initial
              /\ json_getitem initial name = Ok v /\ dict_get p' name = Some v.
Proof.
  induction names as [|n names IH]; intros p p' Hmem; simpl.
  - intros [= <-]. auto.
  - destruct (overlay_step json_data p n) as [p1|e] eqn:Hstep; simpl; [|discriminate].
    intros Hloop.
    assert (Hn : dict_mem p n = true) by (apply Hmem; now left).
    apply overlay_step_inv in Hstep.
    assert (Hk1 : dict_keys p1 = dict_keys p).
    { destruct Hstep as [-> | (_ & initial & v & _ & _ & ->)];
        [reflexivity | now apply dict_keys_set]. }
    destruct (IH p1 p') as (Hk & Hl & Hget); [|assumption|].
    { intros m Hm. apply dict_mem_keys. rewrite Hk1. apply dict_mem_keys.
      apply Hmem. now right. }
    split; [congruence|]. split.
    + rewrite Hl. destruct Hstep as [-> | (Hne & initial & v & _ & _ & ->)];
        [reflexivity|].
      rewrite dict_get_set.
      destruct (String.eqb_spec n "load_data_id"); [contradiction | reflexivity].
    + intros name. destruct (Hget name) as [Hsame | Hnew]; [|now right].
      rewrite Hsame.
      destruct Hstep as [-> | (Hne & initial & v & Hi & Hv & ->)]; [now left|].
      rewrite dict_get_set.
      destruct (String.eqb_spec n name) as [<- | _]; [|now left].
      right. exists initial, v. repeat split; assumption.
Qed.

(** X13: whatever the metadata holds, a loop over the parameters that
    comes to its end leaves the names of the parameters and their order
    as they were, leaves [load_data_id] at its value, and leaves every
    other parameter at its value or at the value stored under its name in
    [initial_parameters]. *)
Theorem overlay_invariants (json_data : json) (p p' : parameters_obj) :
  overlay json_data p = Ok p' ->
  dict_keys p' = dict_keys p
  /\ dict_get p' "load_data_id" = dict_get p "load_data_id"
  /\ forall name,
       dict_get p' name = dict_get p name
       \/ exists initial v,
            json_getitem json_data "initial_parameters" = Ok initial
            /\ json_getitem initial name = Ok v /\ dict_get p' name = Some v.
Proof.
  apply overlay_loop_inv. intros n Hn. now apply dict_mem_keys.
Qed.

Lemma overlay_loop_only_load_data_id (json_data : json) (names : list string)
  (p : parameters_obj) :
  forallb (String.eqb "load_data_id") names = true ->
  overlay_loop json_data names p = Ok p.
Proof.
  induction names as [|n names IH]; cbn [forallb overlay_loop]; [reflexivity|].
  intros H. apply andb_true_iff in H as [Hn H]. apply String.eqb_eq in Hn. subst n.
  unfold overlay_step. rewrite String.eqb_refl. simpl. now apply IH.
Qed.

Lemma overlay_loop_no_initial_parameters (json_data : json) (names : list string)
  (p : parameters_obj) (e : exn) :
  json_getitem json_data "initial_parameters" = Raise e ->
  forallb (String.eqb "load_data_id") names = false ->
  overlay_loop json_data names p = Raise e.
Proof.
  intros He. induction names as [|n names IH]; cbn [forallb overlay_loop];
    [discriminate|].
  destruct (String.eqb_spec "load_data_id" n) as [<- | Hn]; cbn [andb].
  - intros H. unfold overlay_step. rewrite String.eqb_refl. simpl. now apply IH.
  - intros _. unfold overlay_step.
    destruct (String.eqb_spec n "load_data_id") as [-> | _]; [congruence|].
    simpl. now rewrite He.
Qed.

(** X14: parameters whose only name is [load_data_id], or without any
    name, come back as they are whatever the metadata holds; with any
    other name, metadata without [initial_parameters] makes the loop
    raise the error of that lookup, a [KeyError] for a JSON object. *)
Theorem overlay_without_initial_parameters (json_data : json) (p : parameters_obj) :
  (forallb (String.eqb "load_data_id") (dict_keys p) = true -> overlay json_data p = Ok p)
  /\ (forall e,
        json_getitem json_data "initial_parameters" = Raise e ->
        forallb (String.eqb "load_data_id") (dict_keys p) = false ->
        overlay json_data p = Raise e)
  /\ (forall d,
        json_data = JDict d -> dict_get d "initial_parameters" = None ->
        json_getitem json_data "initial_parameters"
        = Raise (mkExn KeyError "initial_parameters")).
Proof.
  split; [apply overlay_loop_only_load_data_id|]. split.
  - intros e He. now apply overlay_loop_no_initial_parameters.
  - intros d -> Hd. simpl. now rewrite Hd.
Qed.

Lemma dict_set_same {V} (d : odict V) (k : string) (v : V) :
  dict_get d k = Some v -> dict_set d k v = d.
Proof.
  unfold dict_get. induction d as [|[a x] d IH]; simpl; [discriminate|].
  destruct (a =? k)%string; simpl.
  - now intros [= ->].
  - intros H. now rewrite IH.
Qed.

(** X15: with a mapping of initial parameters in the metadata, running
    the loop on the parameters it has produced changes nothing more. *)
Theorem overlay_idempotent (json_data : json) (init : odict json) (p p' : parameters_obj) :
  json_getitem json_data "initial_parameters" = Ok (JDict init) ->
  overlay json_data p = Ok p' ->
  overlay json_data p' = Ok p'.
Proof.
  intros Hj Hov.
  destruct (overlay_dict json_data init p Hj) as (p1 & Hp1 & Hkeys & Hget).
  rewrite Hov in Hp1. inversion Hp1; subst p1. clear Hp1.
  unfold overlay. rewrite Hkeys.
  assert (Hfix : forall n, In n (dict_keys p) -> overlay_one init p' n = p').
  { intros n Hn. unfold overlay_one.
    destruct (negb (n =? "load_data_id")%string) eqn:Hl; [|reflexivity].
    destruct (dict_get init n) as [v|] eqn:Hv; [|reflexivity].
    apply dict_set_same. rewrite Hget. unfold overlaid. rewrite Hl. simpl.
    assert (He : existsb (String.eqb n) (dict_keys p) = true).
    { apply existsb_exists. exists n. split; [assumption | apply String.eqb_refl]. }
    rewrite He. simpl.
    assert (Hm : dict_mem init n = true) by (apply dict_mem_get; eauto).
    now rewrite Hm. }
  revert Hfix. generalize (dict_keys p) as names.
  induction names as [|n names IH]; intros Hfix; simpl; [reflexivity|].
  rewrite (overlay_step_dict _ _ _ _ Hj), Hfix by now left. simpl.
  apply IH. intros m Hm. apply Hfix. now right.
Qed.

(** ** Booleans as experiment numbers *)

Lemma str_of_Z_head (z : Z) :
  exists c r, str_of_Z z = String c r /\ (isdigit c = true \/ c = "-"%char).
Proof.
  unfold str_of_Z. destruct (Z.to_int z) as [d|d]; simpl.
  - destruct (string_of_uint_head d) as (c & r & -> & Hc). eauto.
  - eauto.
Qed.

Lemma prefix_cons_eq (a : ascii) (s1 s2 : string) :
  prefix (String a s1) (String a s2) = prefix s1 s2.
Proof. simpl. destruct (ascii_dec a a); [reflexivity | congruence]. Qed.

Lemma prefix_cons_neq (a b : ascii) (s1 s2 : string) :
  a <> b -> prefix (String a s1) (String b s2) = false.
Proof. intros H. simpl. destruct (ascii_dec a b); [contradiction | reflexivity]. Qed.

(** X16: a boolean never finds the folder of a number: no name
    [#<n>_<suffix>] with an integer [n], [#1_<suffix>] and [#0_<suffix>]
    included, is a match for [True] or [False]. *)
Theorem matches_number_bool (b : bool) (n : Z) (suffix : string) :
  matches_number (PyBool b) ("#" ++ str_of_Z n ++ "_" ++ suffix) = false.
Proof.
  unfold matches_number, search_prefix.
  destruct (str_of_Z_head n) as (c & r & -> & Hc).
  apply andb_false_iff. left. unfold startswith.
  destruct b; cbn [py_str append]; rewrite prefix_cons_eq; apply prefix_cons_neq;
    intros <-; destruct Hc; discriminate.
Qed.

(** ** The path of the folder found *)

Lemma split_slash_app (a b : string) :
  split_slash (a ++ String "/" b) = split_slash a ++ split_slash b.
Proof.
  induction a as [|c a IH]; simpl.
  - destruct (split_slash b); reflexivity.
  - rewrite IH. destruct (Ascii.eqb c "/"); [reflexivity|].
    destruct (split_slash a) as [|h t] eqn:Ha; [|reflexivity].
    destruct a; simpl in Ha; [discriminate|].
    destruct (Ascii.eqb a "/"); [discriminate|].
    destruct (split_slash a0); discriminate.
Qed.

Lemma split_slash_plain (d : string) : lacks "/" d = true -> split_slash d = [d].
Proof.
  induction d as [|c d IH]; simpl; [reflexivity|].
  intros H. apply andb_true_iff in H as [Hc Hd]. apply negb_true_iff in Hc.
  now rewrite Hc, (IH Hd).
Qed.

Lemma components_app (a b : string) :
  components (a ++ String "/" b) = components a ++ components b.
Proof. unfold components. now rewrite split_slash_app, filter_app. Qed.

Lemma components_plain (d : string) : plain_name d = true -> components d = [d].
Proof.
  unfold plain_name, components. intros H.
  apply andb_true_iff in H as [H Hdot]. apply andb_true_iff in H as [Hl He].
  rewrite (split_slash_plain d Hl). simpl. now rewrite He, Hdot.
Qed.

Lemma endswith_slash (a : string) :
  endswith a "/" = true -> exists a', a = (a' ++ "/")%string.
Proof.
  induction a as [|c a IH]; [discriminate|].
  destruct a as [|c' a].
  - simpl. destruct (Ascii.eqb_spec c "/") as [->|]; [|discriminate].
    intros _. now exists EmptyString.
  - intros H. change (endswith (String c' a) "/" = true) in H.
    destruct (IH H) as (a' & Ha'). exists (String c a'). simpl. now rewrite Ha'.
Qed.

Lemma plain_name_first (d : string) :
  plain_name d = true -> exists c r, d = String c r /\ c <> "/"%char.
Proof.
  unfold plain_name. destruct d as [|c r]; [discriminate|]. simpl.
  destruct (Ascii.eqb_spec c "/"); [discriminate|]. eauto.
Qed.

(** Joining a plain name to a path adds the name to its components and
    keeps the path absolute or relative. *)
Lemma path_join_components (top d : string) :
  plain_name d = true ->
  components (path_join top d) = components top ++ [d]
  /\ is_absolute (path_join top d) = is_absolute top.
Proof.
  intros Hd. destruct (plain_name_first d Hd) as (c & r & Heq & Hc).
  unfold path_join.
  assert (Hstart : startswith d "/" = false).
  { subst d. apply prefix_cons_neq. congruence. }
  rewrite Hstart.
  destruct (String.eqb_spec top "") as [-> | Htop]; simpl orb.
  - simpl. rewrite (components_plain d Hd). split; [reflexivity|].
    unfold is_absolute. rewrite Hstart. reflexivity.
  - assert (Habs : forall x, is_absolute (top ++ x) = is_absolute top).
    { intros x. destruct top as [|a top]; [congruence|].
      unfold is_absolute, startswith. cbn [append].
      destruct (ascii_dec "/" a) as [<- | Hne].
      - rewrite !prefix_cons_eq. now destruct (top ++ x)%string, top.
      - now rewrite !prefix_cons_neq. }
    destruct (endswith top "/") eqn:He; rewrite Habs; (split; [|reflexivity]).
    + apply endswith_slash in He as (a' & ->).
      rewrite string_app_assoc. cbn [append]. rewrite components_app.
      rewrite (components_plain d Hd).
      replace (a' ++ "/")%string with (a' ++ String "/" "")%string by reflexivity.
      rewrite components_app. cbn. now rewrite app_nil_r.
    + change (top ++ "/" ++ d)%string with (top ++ String "/" d)%string.
      now rewrite components_app, (components_plain d Hd).
Qed.

Section FolderPath.

Variable content : Type.
Implicit Types (fs : filesystem content) (n k : fsnode content).

Lemma full_components_join fs (top d : string) :
  plain_name d = true ->
  full_components fs (path_join top d) = full_components fs top ++ [d].
Proof.
  intros Hd. unfold full_components.
  destruct (path_join_components top d Hd) as [-> ->].
  destruct (is_absolute top); [reflexivity | now rewrite app_assoc].
Qed.

Lemma descend_app n (cs : list string) (d : string) :
  descend n (cs ++ [d])
  = match descend n cs with
    | Some k => descend k [d]
    | None => None
    end.
Proof.
  revert n. induction cs as [|c cs IH]; intros n; simpl; [reflexivity|].
  destruct n as [|name entries]; [reflexivity|].
  destruct (find_entry c entries); [apply IH | reflexivity].
Qed.

Lemma find_entry_unique (entries : list (fsnode content)) (e : fsnode content) :
  NoDup (map node_name entries) -> In e entries ->
  find_entry (node_name e) entries = Some e.
Proof.
  unfold find_entry. induction entries as [|x l IH]; simpl; [intros _ []|].
  intros Hnd Hin. inversion Hnd as [|? ? Hx Hnd']; subst.
  destruct Hin as [-> | Hin].
  - now rewrite String.eqb_refl.
  - destruct (String.eqb_spec (node_name x) (node_name e)) as [Heq|_]; [|now apply IH].
    exfalso. apply Hx. rewrite Heq. now apply in_map.
Qed.

(** An entry of a well-named directory is what its joined path leads
    to. *)
Lemma descend_entry fs (top : string) (name : string) (entries : list (fsnode content))
  (e : fsnode content) :
  well_named (FDir name entries) ->
  descend (FDir "" (fs_root fs)) (full_components fs top) = Some (FDir name entries) ->
  In e entries ->
  descend (FDir "" (fs_root fs)) (full_components fs (path_join top (node_name e)))
  = Some e.
Proof.
  intros Hwn Htop Hin. inversion Hwn as [|? ? Hplain Hnd Hsub]; subst.
  rewrite (full_components_join _ _ _ (Hplain e Hin)), descend_app, Htop. simpl.
  now rewrite (find_entry_unique entries e Hnd Hin).
Qed.

Lemma walk_paths_resolve fs n :
  forall top,
    well_named n ->
    descend (FDir "" (fs_root fs)) (full_components fs top) = Some n ->
    forall root d,
      In (root, d) (encountered (walk_node top n)) ->
      exists sub,
        descend (FDir "" (fs_root fs)) (full_components fs (path_join root d))
        = Some (FDir d sub).
Proof.
  induction n as [name c | name entries IH] using fsnode_tree_ind;
    intros top Hwn Htop root d Hin.
  - destruct Hin.
  - simpl in Hin. apply in_app_or in Hin as [Hin | Hin].
    + apply in_map_iff in Hin as (d' & Heq & Hd).
      injection Heq as Hroot Hd'. subst root d'.
      apply in_dir_names in Hd as (sub & Hsub).
      exists sub. apply (descend_entry fs top name entries (FDir d sub) Hwn Htop Hsub).
    + unfold encountered in Hin. apply in_flat_map in Hin as (st & Hst & Hin).
      apply in_flat_map in Hst as (k & Hk & Hst).
      rewrite Forall_forall in IH.
      apply (IH k Hk (path_join top (node_name k))).
      * inversion Hwn; subst. auto.
      * apply (descend_entry fs top name entries k Hwn Htop Hk).
      * unfold encountered. apply in_flat_map. eauto.
Qed.

Lemma find_numbered_folder_descends fs (base_path : string) (number : pyval) (p : string) :
  well_named (FDir "" (fs_root fs)) ->
  find_numbered_folder fs base_path number = Some p ->
  exists d entries,
    resolve fs p = Some (FDir d entries) /\ matches_number number d = true.
Proof.
  intros Hwn Hfind.
  unfold find_numbered_folder in Hfind. rewrite first_matching_dir_find in Hfind.
  destruct (find _ (encountered (os_walk fs base_path))) as [[root d]|] eqn:Hf;
    [|discriminate].
  simpl in Hfind. inversion Hfind; subst p. clear Hfind.
  apply find_some in Hf as [Hin Hm]. simpl in Hm.
  unfold os_walk in Hin.
  destruct (resolve fs base_path) as [n|] eqn:Hres; [|destruct Hin].
  assert (Hn : well_named n).
  { unfold resolve in Hres. revert Hres.
    generalize (if is_absolute base_path
                then components base_path
                else components (fs_cwd fs) ++ components base_path) as cs.
    generalize (FDir "" (fs_root fs)) as r, Hwn.
    intros r Hr cs. revert r Hr. induction cs as [|c cs IHcs]; intros r Hr; simpl.
    - now intros [= <-].
    - destruct r as [|name entries]; [discriminate|].
      destruct (find_entry c entries) as [k|] eqn:Hk; [|discriminate].
      apply IHcs. inversion Hr; subst.
      apply find_some in Hk as [Hk _]. auto. }
  destruct (walk_paths_resolve fs n base_path Hn Hres root d Hin) as (sub & Hsub).
  exists d, sub. split; [exact Hsub | exact Hm].
Qed.

End FolderPath.

(** X17: in a file system whose directories hold plain names that differ
    from each other, the path that the folder locator returns leads to a
    directory whose name is a match for the number; so the listing of the
    folder found, with which the loader goes on, succeeds and gives the
    names of the entries of that directory. *)
Theorem find_numbered_folder_resolves
  (elt : Type) (w : world elt) (base_path : string) (number : pyval) (p : string) :
  well_named (FDir "" (fs_root (fs w))) ->
  find_numbered_folder (fs w) base_path number = Some p ->
  exists d entries,
    resolve (fs w) p = Some (FDir d entries)
    /\ matches_number number d = true
    /\ os_listdir w (Some p) = (Ok (map node_name entries), [EvListdir p]).
Proof.
  intros Hwn Hfind.
  destruct (find_numbered_folder_descends _ _ _ _ _ Hwn Hfind) as (d & entries & Hr & Hm).
  exists d, entries. repeat split; try assumption.
  unfold os_listdir. rewrite Hr. reflexivity.
Qed.

(** ** The standard assembler, the shapes *)

Lemma list_nat_eqb_eq (a b : list nat) : list_nat_eqb a b = true <-> a = b.
Proof.
  revert b. induction a as [|x a IH]; intros [|y b]; simpl;
    try (split; [discriminate | intros [=]]); try tauto.
  rewrite andb_true_iff, Nat.eqb_eq, IH. split.
  - intros [-> ->]. reflexivity.
  - intros [= -> ->]. auto.
Qed.

Lemma stack_shape (elt : Type) (l : list (ndarray elt)) (a : ndarray elt) :
  stack l = Ok a ->
  (l = [] -> shape a = [0])
  /\ forall b, In b l -> shape a = List.length l :: shape b.
Proof.
  unfold stack. destruct l as [|x rest].
  - intros [= <-]. split; [reflexivity | intros b []].
  - destruct (forallb _ rest) eqn:Hall; [|discriminate].
    intros [= <-]. split; [discriminate|].
    intros b [<- | Hb]; [reflexivity|]. simpl.
    rewrite forallb_forall in Hall. apply Hall, list_nat_eqb_eq in Hb. now rewrite Hb.
Qed.

Lemma forall2_in_combine {A B} (R : A -> B -> Prop) (l : list A) (r : list B) :
  Forall2 R l r -> forall x y, In (x, y) (combine l r) -> R x y.
Proof.
  induction 1 as [|a b l r Hab _ IH]; simpl; intros x y; [intros []|].
  intros [[= <- <-] | Hin]; [assumption | now apply IH].
Qed.

Lemma forall2_in_left {A B} (R : A -> B -> Prop) (l : list A) (r : list B) :
  Forall2 R l r -> forall x, In x l -> exists y, In y r /\ R x y.
Proof.
  induction 1 as [|a b l r Hab _ IH]; simpl; intros x; [intros []|].
  intros [<- | Hin]; [eauto|].
  destruct (IH x Hin) as (y & Hy & Hxy). eauto.
Qed.

Lemma forall2_compose {A B C} (R : A -> B -> Prop) (S : B -> C -> Prop)
  (l : list A) (m : list B) (r : list C) :
  Forall2 R l m -> Forall2 S m r -> Forall2 (fun x z => exists y, R x y /\ S y z) l r.
Proof.
  intros H. revert r. induction H as [|a b l m Hab _ IH]; intros r Hr;
    inversion Hr; subst; constructor; eauto.
Qed.

Lemma removelast_cons2 {A} (a b : A) (l : list A) :
  removelast (a :: b :: l) = a :: removelast (b :: l).
Proof. reflexivity. Qed.

Lemma last_cons2 {A} (a b : A) (l : list A) (d : A) :
  last (a :: b :: l) d = last (b :: l) d.
Proof. reflexivity. Qed.

(** X18: in a dataset that the standard assembler returns, the arrays
    fetched for a variable have one shape [s], one for each qubit
    position, and the variable has the shape of the number of qubits
    followed by [s], with its last axis removed when that axis has length
    1. *)
Theorem fetch_results_as_xarray_shapes
  (elt : Type) (list_of_set : list string -> list string)
  (handles : stream_handles elt) (qs : list qubit) (measurement_axis : odict axis_value)
  (ds : dataset elt) (v : string) (dims : list string) (arr : ndarray elt) :
  fetch_results_as_xarray list_of_set handles qs measurement_axis = Ok ds ->
  In (v, (dims, arr)) (data_vars ds) ->
  exists s,
    (forall i, i < List.length qs ->
               exists a, dict_get handles (handle_key v i) = Some a /\ shape a = s)
    /\ shape arr = (if Nat.eqb (last (List.length qs :: s) 0) 1
                    then removelast (List.length qs :: s)
                    else List.length qs :: s).
Proof.
  unfold fetch_results_as_xarray.
  match goal with
  | |- context [omap ?f (meas_vars_of list_of_set handles)] =>
      set (row_of := f);
      destruct (omap row_of (meas_vars_of list_of_set handles)) as [rows|e] eqn:Hrows
  end; cbn [obind]; [|discriminate].
  destruct (omap stack rows) as [stacked|e] eqn:Hstacked; cbn [obind]; [|discriminate].
  destruct (stack stacked) as [full|e] eqn:Hfull; cbn [obind]; [|discriminate].
  unfold xr_Dataset.
  destruct (negb (forallb _ _)); [discriminate|].
  destruct (existsb _ _); [discriminate|].
  destruct (negb (sizes_agree _)); [discriminate|].
  intros [= <-] Hin. simpl in Hin.
  apply in_map_iff in Hin as ([v' arr'] & Heq & Hc). simpl in Heq.
  injection Heq as Hv _ Harr. subst v' arr'.
  (* the row of [v] and its stacked array *)
  assert (Hrel : Forall2 (fun mv st => exists row, row_of mv = Ok row /\ stack row = Ok st)
                   (meas_vars_of list_of_set handles) stacked).
  { eapply forall2_compose; [apply (omap_forall2 _ _ _ Hrows)|].
    apply (omap_forall2 _ _ _ Hstacked). }
  assert (Hv : In v (meas_vars_of list_of_set handles)) by (eapply in_combine_l; eassumption).
  destruct (forall2_in_left _ _ _ Hrel v Hv) as (st & Hst & row & Hrow & Hstack).
  assert (Hlen : List.length row = List.length qs).
  { unfold row_of in Hrow. rewrite (omap_length _ _ _ Hrow). apply enumerate_length. }
  destruct (stack_shape _ _ _ Hstack) as [Hempty Hshape].
  set (s := match row with [] => [] | a :: _ => shape a end).
  assert (Hst_shape : shape st = List.length qs :: s).
  { unfold s. destruct row as [|a row'].
    - rewrite (Hempty eq_refl). now rewrite <- Hlen.
    - rewrite (Hshape a (or_introl eq_refl)). now rewrite Hlen. }
  assert (Hfull_shape : shape full = List.length stacked :: List.length qs :: s).
  { destruct (stack_shape _ _ _ Hfull) as [_ Hf]. rewrite (Hf st Hst). now rewrite Hst_shape. }
  exists s. split.
  - intros i Hi. destruct (in_enumerate qs i Hi) as (q & Hq).
    unfold row_of in Hrow.
    destruct (forall2_in_left _ _ _ (omap_forall2 _ _ _ Hrow) (i, q) Hq) as (a & Ha & Hfa).
    simpl in Hfa. unfold fetch_all in Hfa.
    destruct (dict_get handles (handle_key v i)) as [a'|]; [|discriminate].
    inversion Hfa; subst a'. exists a. split; [reflexivity|].
    pose proof (Hshape a Ha) as Heq. rewrite Hst_shape, Hlen in Heq.
    now inversion Heq.
  - rewrite Hfull_shape, last_cons2 in Hc.
    destruct (Nat.eqb (last (List.length qs :: s) 0) 1) eqn:Hlast.
    + apply in_combine_r in Hc. apply in_map_iff in Hc as (i & <- & _).
      cbn [subarray squeeze_last shape]. rewrite Hfull_shape, removelast_cons2. reflexivity.
    + assert (Hst' : exists row', row_of v = Ok row' /\ stack row' = Ok arr).
      { apply (forall2_in_combine _ _ _ Hrel v arr Hc). }
      destruct Hst' as (row' & Hrow' & Hstack'). rewrite Hrow in Hrow'.
      inversion Hrow'; subst row'. rewrite Hstack in Hstack'.
      inversion Hstack'; subst arr. exact Hst_shape.
Qed.

(** ** Runs on the examples *)

Lemma nodup_enumerates (l : list string) :
  NoDup (nodup string_dec l) /\ forall x, In x (nodup string_dec l) <-> In x l.
Proof. split; [apply NoDup_nodup | intros x; apply nodup_In]. Qed.

Ltac well_named_tree :=
  first
    [ apply well_named_file
    | apply well_named_dir;
      [ intros e He; simpl in He;
        repeat (destruct He as [<- | He]; [reflexivity|]); destruct He
      | simpl; repeat constructor; simpl; intuition discriminate
      | intros e He; simpl in He;
        repeat (destruct He as [<- | He]; [well_named_tree|]); destruct He ] ].

Lemma world_complete_well_named :
  well_named (FDir "" (fs_root (fs Examples.world_complete))).
Proof.
  well_named_tree.
Qed.

Lemma meas_vars_of_spec_example :
  NoDup (meas_vars_of (nodup string_dec) Examples.handles_iq)
  /\ forall v,
       In v (meas_vars_of (nodup string_dec) Examples.handles_iq)
       <-> exists key c r,
             In key (dict_keys Examples.handles_iq) /\ key = (v ++ String c r)%string
             /\ no_digit v = true /\ isdigit c = true.
Proof.
  exact (meas_vars_of_spec Z (nodup string_dec) nodup_enumerates Examples.handles_iq).
Defined.

Lemma fetch_missing_handle_example :
  fetch_results_as_xarray (nodup string_dec) Examples.handles_i1
    [Examples.q1; Examples.q2] Examples.axes_freq
  = Raise (mkExn AttributeError "'NoneType' object has no attribute 'fetch_all'")
  /\ exists e, fetch_single_shot_results_as_xarray (nodup string_dec) Examples.handles_i1
                 [Examples.q1; Examples.q2] Examples.axes_freq
               = Raise e.
Proof.
  apply (fetch_missing_handle Z (nodup string_dec) Examples.handles_i1
           [Examples.q1; Examples.q2] Examples.axes_freq "I" 1).
  - vm_compute. left. reflexivity.
  - apply Nat.lt_succ_diag_r.
  - reflexivity.
Defined.

Lemma match_axis_order_shape_example :
  exists arr,
    match_axis_order "I" 0 Examples.grid312 Examples.axes23 = Ok arr
    /\ map Z.of_nat (shape arr) = expected_shape Examples.axes23
    /\ (arr = squeeze Examples.grid312
        \/ exists perm,
             omap (tuple_index (squeezed_shape Examples.grid312))
               (expected_shape Examples.axes23) = Ok perm
             /\ transpose (squeeze Examples.grid312) perm = Ok arr).
Proof.
  eexists. split; [reflexivity|].
  apply (match_axis_order_shape Z "I" 0 Examples.grid312 Examples.axes23 _ eq_refl).
Defined.

Lemma match_axis_order_singleton_axis_example :
  match_axis_order "I" 0 (Examples.trace3 10) Examples.axes_single
  = Raise (mkExn ValueError "Shape mismatch for I1: got (3,), expected [1, 3]").
Proof.
  apply (match_axis_order_singleton_axis Z "I" 0 (Examples.trace3 10) Examples.axes_single 1%Z).
  - left. reflexivity.
  - left. reflexivity.
Defined.

Lemma fetch_single_shot_results_as_xarray_shapes_example :
  exists ds,
    fetch_single_shot_results_as_xarray (nodup string_dec)
      [("I1", Examples.grid312)] [Examples.q1] Examples.axes23 = Ok ds
    /\ coords ds = coords_with_qubit [Examples.q1] Examples.axes23
    /\ dict_keys (data_vars ds)
       = meas_vars_of (nodup string_dec) [("I1", Examples.grid312)]
    /\ forall v dims arr,
         In (v, (dims, arr)) (data_vars ds) ->
         dims = "qubit" :: dict_keys Examples.axes23
         /\ exists s, shape arr = 1 :: s /\ map Z.of_nat s = expected_shape Examples.axes23.
Proof.
  eexists. split; [reflexivity|].
  apply (fetch_single_shot_results_as_xarray_shapes Z (nodup string_dec)
           [("I1", Examples.grid312)] [Examples.q1] Examples.axes23 _ eq_refl).
Defined.

Lemma load_dataset_bundle_inv_example :
  exists base_folder names t f ds machine json_data qs,
    isinstance_int (PyInt 12) = true
    /\ find_numbered_folder (fs Examples.world_complete)
         (path_str (storage_location Examples.world_complete)) (PyInt 12)
       = Some base_folder
    /\ os_listdir Examples.world_complete (Some base_folder) = (Ok names, t)
    /\ hd_error (filter (has_stem "ds") (filter is_h5 names)) = Some f
    /\ fst (xr_open_dataset Examples.world_complete (path_join base_folder f)) = Ok ds
    /\ fst (json_load Examples.world_complete (path_join base_folder "data.json"))
       = Ok json_data
    /\ fst (load_machine Examples.world_complete (Some base_folder)) = Ok machine
    /\ cross_reference machine ds = Ok qs
    /\ Bundle4 Examples.ds_q1 (Some (mkQuam [("q1", Examples.q1)])) Examples.metadata
         [Examples.q1]
       = Bundle4 ds machine json_data qs.
Proof.
  exact (load_dataset_bundle_inv Z Examples.world_complete (PyInt 12) "ds" None
           (Bundle4 Examples.ds_q1 (Some (mkQuam [("q1", Examples.q1)])) Examples.metadata
              [Examples.q1]) eq_refl).
Defined.

Lemma load_dataset_without_folder_example :
  load_dataset Examples.world_no_folder (PyInt 7) "ds" None
  = (Raise (mkExn TypeError "expected str, bytes or os.PathLike object, not NoneType"),
     [EvSettings; EvWalk "/data"] ++ [EvListdir "."]).
Proof.
  exact (load_dataset_without_folder Z Examples.world_no_folder (PyInt 7) "ds" None
           ["ds.h5"] [EvListdir "."] eq_refl eq_refl eq_refl).
Defined.

Lemma load_dataset_target_missing_example :
  load_dataset Examples.world_other_file (PyInt 7) "ds" None
  = (Raise (mkExn TypeError "expected str, bytes or os.PathLike object, not NoneType"),
     [EvSettings; EvWalk "/data"] ++ [EvListdir "/data/#7_foo"]).
Proof.
  apply (load_dataset_target_missing Z Examples.world_other_file (PyInt 7) "/data/#7_foo"
           "ds" None ["other.h5"; "data.json"; "quam_state.json"]
           [EvListdir "/data/#7_foo"] eq_refl eq_refl eq_refl).
  - discriminate.
  - reflexivity.
Defined.

Lemma load_dataset_dotted_target_example :
  load_dataset Examples.world_complete (PyInt 12) "ds.h5" None
  = (Raise (mkExn TypeError "expected str, bytes or os.PathLike object, not NoneType"),
     [EvSettings; EvWalk "/data"] ++ [EvListdir "/data/#12_test"]).
Proof.
  apply (load_dataset_dotted_target Z Examples.world_complete (PyInt 12) "/data/#12_test"
           "ds.h5" None ["ds.h5"; "data.json"; "quam_state.json"]
           [EvListdir "/data/#12_test"] eq_refl eq_refl eq_refl).
  - discriminate.
  - reflexivity.
Defined.

Lemma cross_reference_ok_example :
  exists names,
    ds_qubit_values Examples.ds_q1 = Ok names
    /\ Forall2 (fun qname q =>
                  exists m s, Some (mkQuam [("q1", Examples.q1)]) = Some m
                              /\ qname = PyStr s /\ dict_get (qubits m) s = Some q)
         names [Examples.q1]
    /\ (Some (mkQuam [("q1", Examples.q1)]) = None -> names = [] /\ [Examples.q1] = []).
Proof.
  exact (cross_reference_ok Z (Some (mkQuam [("q1", Examples.q1)])) Examples.ds_q1
           [Examples.q1] eq_refl).
Defined.

Lemma overlay_invariants_example :
  let p' := [("amplitude", JAtom (PyFloat "0.5")); ("load_data_id", JAtom (PyInt 3))] in
  dict_keys p' = dict_keys Examples.params
  /\ dict_get p' "load_data_id" = dict_get Examples.params "load_data_id"
  /\ forall name,
       dict_get p' name = dict_get Examples.params name
       \/ exists initial v,
            json_getitem Examples.metadata "initial_parameters" = Ok initial
            /\ json_getitem initial name = Ok v /\ dict_get p' name = Some v.
Proof.
  exact (overlay_invariants Examples.metadata Examples.params
           [("amplitude", JAtom (PyFloat "0.5")); ("load_data_id", JAtom (PyInt 3))] eq_refl).
Defined.

Lemma overlay_idempotent_example :
  let p' := [("amplitude", JAtom (PyFloat "0.5")); ("load_data_id", JAtom (PyInt 3))] in
  overlay Examples.metadata p' = Ok p'.
Proof.
  exact (overlay_idempotent Examples.metadata [("amplitude", JAtom (PyFloat "0.5"))]
           Examples.params
           [("amplitude", JAtom (PyFloat "0.5")); ("load_data_id", JAtom (PyInt 3))]
           eq_refl eq_refl).
Defined.

Lemma find_numbered_folder_resolves_example :
  exists d entries,
    resolve (fs Examples.world_complete) "/data/#12_test" = Some (FDir d entries)
    /\ matches_number (PyInt 12) d = true
    /\ os_listdir Examples.world_complete (Some "/data/#12_test")
       = (Ok (map node_name entries), [EvListdir "/data/#12_test"]).
Proof.
  exact (find_numbered_folder_resolves Z Examples.world_complete "/data" (PyInt 12)
           "/data/#12_test" world_complete_well_named eq_refl).
Defined.

Lemma fetch_results_as_xarray_shapes_example :
  exists ds arr,
    fetch_results_as_xarray (nodup string_dec) Examples.handles_iq
      [Examples.q1; Examples.q2] Examples.axes_freq = Ok ds
    /\ dict_get (data_vars ds) "I" = Some (["qubit"; "freq"], arr)
    /\ exists s,
         (forall i, i < 2 ->
                    exists a, dict_get Examples.handles_iq (handle_key "I" i) = Some a
                              /\ shape a = s)
         /\ shape arr = (if Nat.eqb (last (2 :: s) 0) 1 then removelast (2 :: s) else 2 :: s).
Proof.
  eexists. eexists. split; [reflexivity|]. split; [reflexivity|].
  apply (fetch_results_as_xarray_shapes Z (nodup string_dec) Examples.handles_iq
           [Examples.q1; Examples.q2] Examples.axes_freq _ "I" ["qubit"; "freq"] _ eq_refl).
  left. reflexivity.
Defined.

Lemma fetch_results_as_xarray_dims_example :
  exists ds,
    fetch_results_as_xarray (nodup string_dec) Examples.handles_iq
      [Examples.q1; Examples.q2] Examples.axes_freq = Ok ds
    /\ coords ds = rev (dict_set Examples.axes_freq "qubit"
                          (qubit_names [Examples.q1; Examples.q2]))
    /\ forall v, In v (data_vars ds) ->
                 fst (snd v)
                 = dict_keys (rev (dict_set Examples.axes_freq "qubit"
                                     (qubit_names [Examples.q1; Examples.q2]))).
Proof.
  eexists. split; [reflexivity|].
  apply (fetch_results_as_xarray_dims Z (nodup string_dec) Examples.handles_iq
           [Examples.q1; Examples.q2] Examples.axes_freq _ eq_refl).
Defined.

Lemma match_axis_order_mismatch_example :
  match_axis_order "I" 0 Examples.grid312 Examples.axes45
  = Raise (mkExn ValueError "Shape mismatch for I1: got (3, 2), expected [4, 5]").
Proof.
  apply (match_axis_order_mismatch Z "I" 0 Examples.grid312 Examples.axes45).
  discriminate.
Defined.

Lemma match_axis_order_transposed_example :
  exists perm arr,
    omap (tuple_index (squeezed_shape Examples.grid312)) (expected_shape Examples.axes23)
    = Ok perm
    /\ match_axis_order "I" 0 Examples.grid312 Examples.axes23 = Ok arr
    /\ map Z.of_nat (shape arr) = expected_shape Examples.axes23
    /\ forall idx,
         item arr idx
         = item (squeeze Examples.grid312)
             (map (fun m => nth (position m perm) idx 0)
                  (seq 0 (ndim (squeeze Examples.grid312)))).
Proof.
  apply (match_axis_order_transposed Z "I" 0 Examples.grid312 Examples.axes23).
  - discriminate.
  - reflexivity.
  - repeat constructor; simpl; intuition discriminate.
Defined.

Lemma match_axis_order_repeated_example :
  match_axis_order "I" 0 Examples.grid322 Examples.axes232
  = Raise (mkExn ValueError "repeated axis in transpose").
Proof.
  apply (match_axis_order_repeated Z "I" 0 Examples.grid322 Examples.axes232).
  - discriminate.
  - reflexivity.
  - intros H. inversion H as [|? ? Hin _]; subst. apply Hin. simpl. auto.
Defined.
